(** * Async context tracking of workerd's jsg layer (src/workerd/jsg/async-context.{h,c++})

    The file async-context.c++ holds two successive implementations of the
    same subsystem, one after the other:
    - version A (lines 1-352): [tryGetContext], [Ref<AsyncContextFrame>], a
      lazily created root that is NOT kept on the frame stack, a promise hook
      that skips tagging for the root and erases tags of fulfilled promises;
    - version B (lines 353-608, matching async-context.h): [tryUnwrap],
      [kj::Own<AsyncContextFrame>], a [current] that asserts a non-empty
      stack, a promise hook that tags every promise.
    Both are embedded below (modules [VA] and [VB]) over one shared model of
    the isolate state. *)

From stdpp Require Import base gmap sets list strings.

(** ** Data model *)

(** Frames are identified by their address. *)
Definition FrameId := nat.

(** A [Value] is a handle to a JS value ([jsg::Value]); [addRef] produces a
    second handle to the same JS value, so a clone carries the same handle. *)
Definition Value := nat.

(** [AsyncContextFrame::StorageKey]: its address and the hash computed at
    construction ([kj::hashCode(this)]). The [dead] flag is mutable state of
    the key and lives in the isolate state ([deadKeys]). *)
Record StorageKey := mkKey { kaddr : nat; khash : nat }.

(** [AsyncContextFrame::StorageEntry]. *)
Record StorageEntry := mkEntry { key : StorageKey; value : Value }.

(** [Storage = kj::Table<StorageEntry, kj::HashIndex<StorageEntryCallbacks>>].
    The hash index matches rows by [hashCode()] only, so the table holds at
    most one row per hash: we represent it as a map from the key hash to the
    row. Row order is not observable through [find]/[insert]/[upsert]. *)
Abbreviation Storage := (gmap nat StorageEntry).

(** v8::Promise::PromiseState *)
Inductive PromiseState := kPending | kFulfilled | kRejected.

(** v8::PromiseHookType *)
Inductive PromiseHookType := kInit | kBefore | kAfter | kResolve.

(** A promise object as the hook sees it: its identity and its state. *)
Record Promise := mkPromise { pid : nat; pstate : PromiseState }.

(** Exceptions raised by the code: [KJ_ASSERT]/[KJ_DASSERT]/[KJ_REQUIRE]
    failures (a [kj::Exception]), [JSG_REQUIRE(..., TypeError, msg)], and
    undefined behaviour ([std::list::pop_front] on an empty list). *)
Inductive Exn :=
| KjAssertion (msg : string)
| JsgTypeError (msg : string)
| UndefinedBehaviour.

(** The part of [IsolateBase] (and of the JS heap) this code touches. *)
Record IsolateBase := mkIsolate {
  asyncFrameStack : list FrameId;         (** std::list, front = top *)
  rootAsyncFrame : option FrameId;        (** version A: kj::Maybe<Ref<...>> *)
  frames : gmap FrameId Storage;          (** each frame's [storage] *)
  nextFrame : FrameId;                    (** next fresh frame address *)
  deadKeys : gset nat;                    (** addresses of keys after [reset()] *)
  promiseTags : gmap nat FrameId;         (** ASYNC_RESOURCE private of promises *)
  fnTags : gmap nat FrameId;              (** ASYNC_RESOURCE private of functions *)
  fnThisArg : gmap nat Value;             (** THIS_ARG private of functions *)
  wrappers : gmap nat nat;                (** wrapper function -> wrapped [fn] *)
  nextFn : nat;                           (** next fresh function identity *)
  terminating : bool;                     (** IsExecutionTerminating() || IsDead() *)
  internalErrors : list Exn               (** errors passed to throwInternalError *)
}.

(** ** A state and exception monad for the isolate *)

Inductive Res (A : Type) := Ok (a : A) | Throw (e : Exn).
Arguments Ok {A} a.
Arguments Throw {A} e.

Definition M (A : Type) := IsolateBase -> Res A * IsolateBase.

Global Instance M_ret : MRet M := fun A a st => (Ok a, st).
Global Instance M_bind : MBind M := fun A B k m st =>
  match m st with
  | (Ok a, st') => k a st'
  | (Throw e, st') => (Throw e, st')
  end.

Definition throw {A} (e : Exn) : M A := fun st => (Throw e, st).
Definition gets {A} (f : IsolateBase -> A) : M A := fun st => (Ok (f st), st).
Definition modify (f : IsolateBase -> IsolateBase) : M unit := fun st => (Ok tt, f st).

(** Record updates. *)
Definition set_stack (s : list FrameId) (st : IsolateBase) : IsolateBase :=
  mkIsolate s (rootAsyncFrame st) (frames st) (nextFrame st) (deadKeys st)
    (promiseTags st) (fnTags st) (fnThisArg st) (wrappers st) (nextFn st)
    (terminating st) (internalErrors st).
Definition set_root (r : option FrameId) (st : IsolateBase) : IsolateBase :=
  mkIsolate (asyncFrameStack st) r (frames st) (nextFrame st) (deadKeys st)
    (promiseTags st) (fnTags st) (fnThisArg st) (wrappers st) (nextFn st)
    (terminating st) (internalErrors st).
Definition set_frames (fs : gmap FrameId Storage) (n : FrameId) (st : IsolateBase) : IsolateBase :=
  mkIsolate (asyncFrameStack st) (rootAsyncFrame st) fs n (deadKeys st)
    (promiseTags st) (fnTags st) (fnThisArg st) (wrappers st) (nextFn st)
    (terminating st) (internalErrors st).
Definition set_promiseTags (t : gmap nat FrameId) (st : IsolateBase) : IsolateBase :=
  mkIsolate (asyncFrameStack st) (rootAsyncFrame st) (frames st) (nextFrame st) (deadKeys st)
    t (fnTags st) (fnThisArg st) (wrappers st) (nextFn st)
    (terminating st) (internalErrors st).
Definition set_fns (t : gmap nat FrameId) (ta : gmap nat Value) (w : gmap nat nat) (n : nat)
    (st : IsolateBase) : IsolateBase :=
  mkIsolate (asyncFrameStack st) (rootAsyncFrame st) (frames st) (nextFrame st) (deadKeys st)
    (promiseTags st) t ta w n (terminating st) (internalErrors st).
Definition add_internalError (e : Exn) (st : IsolateBase) : IsolateBase :=
  mkIsolate (asyncFrameStack st) (rootAsyncFrame st) (frames st) (nextFrame st) (deadKeys st)
    (promiseTags st) (fnTags st) (fnThisArg st) (wrappers st) (nextFn st)
    (terminating st) (internalErrors st ++ [e]).

(** [KJ_ASSERT] is always checked; [KJ_DASSERT] only in a [KJ_DEBUG] build. *)
Definition kj_assert (b : bool) (msg : string) : M unit :=
  if b then mret tt else throw (KjAssertion msg).

Section Build.
(** Whether the build defines [KJ_DEBUG]. *)
Variable kj_debug : bool.

Definition kj_dassert (b : bool) (msg : string) : M unit :=
  if kj_debug then kj_assert b msg else mret tt.

End Build.

(** ** Storage keys and tables *)

(** [StorageKey::isDead()] *)
Definition isDead (st : IsolateBase) (k : StorageKey) : bool :=
  bool_decide (kaddr k ∈ deadKeys st).

(** [StorageKey::reset()] *)
Definition reset (k : StorageKey) (st : IsolateBase) : IsolateBase :=
  mkIsolate (asyncFrameStack st) (rootAsyncFrame st) (frames st) (nextFrame st)
    ({[kaddr k]} ∪ deadKeys st) (promiseTags st) (fnTags st) (fnThisArg st)
    (wrappers st) (nextFn st) (terminating st) (internalErrors st).

(** [StorageEntry::clone]: [addRef] of the key and of the value. *)
Definition clone (e : StorageEntry) : StorageEntry := mkEntry (key e) (value e).

(** [storage.eraseAll([](entry) { return entry.key->isDead(); })] *)
Definition eraseDead (st : IsolateBase) (s : Storage) : Storage :=
  filter (fun he : nat * StorageEntry => isDead st (key he.2) = false) s.

(** [storage.find(key)]: the row whose key has the same [hashCode()]. *)
Definition tableFind (k : StorageKey) (s : Storage) : option Value :=
  value <$> s !! khash k.

(** [storage.insert(row)]: a row with the same hash already present makes the
    table throw ("inserted row already exists in table"). *)
Definition tableInsert (e : StorageEntry) (s : Storage) : option Storage :=
  match s !! khash (key e) with
  | Some _ => None
  | None => Some (<[khash (key e) := e]> s)
  end.

(** [storage.upsert(row, [](existing, row) { existing.value = row.value; })] *)
Definition tableUpsert (e : StorageEntry) (s : Storage) : Storage :=
  match s !! khash (key e) with
  | Some ex => <[khash (key e) := mkEntry (key ex) (value e)]> s
  | None => <[khash (key e) := e]> s
  end.

(** [for (auto& entry : parent.storage) storage.insert(entry.clone(js));] *)
Fixpoint insertAll (rows : list (nat * StorageEntry)) (s : Storage) : option Storage :=
  match rows with
  | [] => Some s
  | (_, e) :: rest =>
      match tableInsert (clone e) s with
      | Some s' => insertAll rest s'
      | None => None
      end
  end.

(** The storage of a frame. *)
Definition storageOf (st : IsolateBase) (f : FrameId) : Storage :=
  default ∅ (frames st !! f).

Definition getStorage (f : FrameId) : M Storage := gets (fun st => storageOf st f).
Definition setStorage (f : FrameId) (s : Storage) : M unit :=
  modify (fun st => set_frames (<[f := s]> (frames st)) (nextFrame st) st).

(** [AsyncContextFrame::get] (identical in both versions, lines 161-165 and
    511-515). *)
Definition get (f : FrameId) (k : StorageKey) : M (option Value) :=
  d ← gets (fun st => isDead st k);
  kj_assert (negb d) "!key.isDead()";;
  st ← gets id;
  setStorage f (eraseDead st (storageOf st f));;
  s ← getStorage f;
  mret (tableFind k s).

(** [alloc<AsyncContextFrame>] / [kj::refcounted<AsyncContextFrame>]: a fresh
    frame with an empty storage table. *)
Definition allocFrame : M FrameId :=
  n ← gets nextFrame;
  modify (fun st => set_frames (<[n := ∅]> (frames st)) (S n) st);;
  mret n.

(** [IsolateBase::pushAsyncFrame] (both versions). *)
Definition pushAsyncFrame (f : FrameId) : M unit :=
  modify (fun st => set_stack (f :: asyncFrameStack st) st).

(** Reading the ASYNC_RESOURCE private of a promise and unwrapping the frame
    it holds ([tryGetContext] in version A, [tryUnwrap] in version B). *)
Definition tryGetContext (p : Promise) : M (option FrameId) :=
  gets (fun st => promiseTags st !! pid p).

(** [promise->SetPrivate(context, handle, <wrapper of frame>)] *)
Definition setPromiseTag (p : Promise) (f : FrameId) : M unit :=
  modify (fun st => set_promiseTags (<[pid p := f]> (promiseTags st)) st).

(** [promise->DeletePrivate(context, handle)] *)
Definition deletePromiseTag (p : Promise) : M unit :=
  modify (fun st => set_promiseTags (delete (pid p) (promiseTags st)) st).

Definition isRejected (p : Promise) : bool :=
  match pstate p with kRejected => true | _ => false end.

(** The propagation shared by both constructors: purge the parent's dead
    entries, clone every remaining row into the child, then upsert the
    override entry. [debugEmptyCheck] is version B's
    [KJ_DASSERT(other.size() == 0)], placed after the purge as in the source. *)
Definition propagate (debugEmptyCheck : Storage -> M unit) (child parent : FrameId)
    (maybeStorageEntry : option StorageEntry) : M unit :=
  st ← gets id;
  setStorage parent (eraseDead st (storageOf st parent));;
  cs0 ← getStorage child;
  debugEmptyCheck cs0;;
  ps ← getStorage parent;
  match insertAll (map_to_list ps) cs0 with
  | None => throw (KjAssertion "inserted row already exists in table")
  | Some cs => setStorage child cs
  end;;
  match maybeStorageEntry with
  | Some e => cs ← getStorage child; setStorage child (tableUpsert e cs)
  | None => mret tt
  end.

(** [AsyncContextFrame::wrap(js, fn, maybeFrame, thisArg)] for functions; the
    two versions differ only in how they obtain [current(js)] (and in how the
    frame is wrapped into a JS object, which is not observable here). The
    [maybeFrame] argument is ignored by both versions. *)
Definition wrapFunction (current : M FrameId) (fn : nat) (thisArg : option Value) : M nat :=
  has ← gets (fun st => bool_decide (is_Some (fnTags st !! fn)));
  if (has : bool) then throw (JsgTypeError "This function has already been associated with an async context.")
  else
    f ← current;
    modify (fun st => set_fns (<[fn := f]> (fnTags st)) (fnThisArg st) (wrappers st) (nextFn st) st);;
    match thisArg with
    | Some a => modify (fun st => set_fns (fnTags st) (<[fn := a]> (fnThisArg st)) (wrappers st) (nextFn st) st)
    | None => mret tt
    end;;
    w ← gets nextFn;
    modify (fun st => set_fns (fnTags st) (fnThisArg st) (<[w := fn]> (wrappers st)) (S w) st);;
    mret w.

(** ** Version A (async-context.c++ lines 1-352) *)
Module VA.
Section WithDebug.
Variable kj_debug : bool.

(** [IsolateBase::getRootAsyncContext] (lines 229-240). *)
Definition getRootAsyncContext : M FrameId :=
  r ← gets rootAsyncFrame;
  match r with
  | Some f => mret f
  | None =>
      s ← gets asyncFrameStack;
      kj_assert (bool_decide (s = [])) "asyncFrameStack.empty()";;
      f ← allocFrame;
      modify (set_root (Some f));;
      mret f
  end.

(** [AsyncContextFrame::current] (lines 72-78). *)
Definition current : M FrameId :=
  s ← gets asyncFrameStack;
  match s with
  | [] => getRootAsyncContext
  | f :: _ => mret f
  end.

(** [AsyncContextFrame::isRoot] (lines 193-195). *)
Definition isRoot (f : FrameId) : M bool :=
  r ← getRootAsyncContext;
  mret (bool_decide (r = f)).

(** [IsolateBase::popAsyncFrame] (lines 214-217). *)
Definition popAsyncFrame : M unit :=
  s ← gets asyncFrameStack;
  kj_dassert kj_debug (negb (bool_decide (s = []))) "the async context frame stack was corrupted";;
  match s with
  | [] => throw UndefinedBehaviour
  | _ :: t => modify (set_stack t)
  end.

(** [AsyncContextFrame::AsyncContextFrame(js, maybeParent, maybeStorageEntry)]
    (lines 29-54), reached through [create]. *)
Definition create (maybeParent : option FrameId) (maybeStorageEntry : option StorageEntry)
    : M FrameId :=
  c ← allocFrame;
  p ← match maybeParent with Some p => mret p | None => current end;
  propagate (fun _ => mret tt) c p maybeStorageEntry;;
  mret c.

(** [AsyncContextFrame::attachContext] (lines 146-159). *)
Definition attachContext (p : Promise) : M unit :=
  t ← tryGetContext p;
  kj_dassert kj_debug (bool_decide (t = None)) "!promise->HasPrivate(context, handle)";;
  f ← current;
  setPromiseTag p f.

(** [AsyncContextFrame::wrap] for functions (lines 87-144). *)
Definition wrap (fn : nat) (thisArg : option Value) : M nat := wrapFunction current fn thisArg.

(** The try/catch of [promiseHook]: a [kj::Exception] is handed to
    [throwInternalError] and the hook returns normally. *)
Definition catchInternal (m : M unit) : M unit := fun st =>
  match m st with
  | (Ok a, st') => (Ok a, st')
  | (Throw UndefinedBehaviour, st') => (Throw UndefinedBehaviour, st')
  | (Throw e, st') => (Ok tt, add_internalError e st')
  end.

(** [IsolateBase::promiseHook] (lines 242-350). *)
Definition promiseHook (type : PromiseHookType) (p : Promise) : M unit :=
  term ← gets terminating;
  if (term : bool) then mret tt else
  currentFrame ← current;
  catchInternal
    (match type with
     | kInit =>
         b ← isRoot currentFrame;
         if (b : bool) then mret tt else
         t ← tryGetContext p;
         kj_dassert kj_debug (bool_decide (t = None)) "tryGetContext(js, promise) == nullptr";;
         attachContext p
     | kBefore =>
         t ← tryGetContext p;
         match t with
         | Some f => pushAsyncFrame f
         | None => r ← getRootAsyncContext; pushAsyncFrame r
         end
     | kAfter =>
         (if kj_debug then
            t ← tryGetContext p;
            match t with
            | Some f => kj_assert (bool_decide (f = currentFrame)) "frame == &currentFrame"
            | None => b ← isRoot currentFrame; kj_assert b "currentFrame.isRoot(js)"
            end
          else mret tt);;
         popAsyncFrame;;
         if isRejected p then mret tt else deletePromiseTag p
     | kResolve =>
         b ← isRoot currentFrame;
         if (b : bool) then mret tt else
         if negb (isRejected p) then mret tt else
         t ← tryGetContext p;
         match t with
         | None => attachContext p
         | Some _ => mret tt
         end
     end).

End WithDebug.
End VA.

(** ** Version B (async-context.c++ lines 353-608, async-context.h) *)
Module VB.
Section WithDebug.
Variable kj_debug : bool.

(** [AsyncContextFrame::current] (lines 425-429). *)
Definition current : M FrameId :=
  s ← gets asyncFrameStack;
  kj_assert (negb (bool_decide (s = []))) "!isolateBase.asyncFrameStack.empty()";;
  match s with
  | f :: _ => mret f
  | [] => throw UndefinedBehaviour
  end.

(** [IsolateBase::popAsyncFrame] (lines 544-547): pop first, then check. *)
Definition popAsyncFrame : M unit :=
  s ← gets asyncFrameStack;
  match s with
  | [] => throw UndefinedBehaviour
  | _ :: t =>
      modify (set_stack t);;
      kj_dassert kj_debug (negb (bool_decide (t = []))) "the async context frame stack was corrupted"
  end.

(** [AsyncContextFrame::AsyncContextFrame(js, maybeParent, maybeStorageEntry)]
    and [propagateTo] (lines 382-409), reached through [create]. *)
Definition create (maybeParent : option FrameId) (maybeStorageEntry : option StorageEntry)
    : M FrameId :=
  c ← allocFrame;
  p ← match maybeParent with Some p => mret p | None => current end;
  propagate (fun other => kj_dassert kj_debug (bool_decide (size other = 0)) "other.size() == 0")
    c p maybeStorageEntry;;
  mret c.

(** [AsyncContextFrame::wrap] for functions (lines 438-494). *)
Definition wrap (fn : nat) (thisArg : option Value) : M nat := wrapFunction current fn thisArg.

(** [AsyncContextFrame::wrap] for promises (lines 496-510). *)
Definition wrapPromise (p : Promise) : M unit :=
  t ← tryGetContext p;
  match t with
  | None => f ← current; setPromiseTag p f
  | Some _ => mret tt
  end.

(** [IsolateBase::promiseHook] (lines 549-605); no try/catch here. *)
Definition promiseHook (type : PromiseHookType) (p : Promise) : M unit :=
  term ← gets terminating;
  if (term : bool) then mret tt else
  match type with
  | kInit =>
      t ← tryGetContext p;
      kj_dassert kj_debug (bool_decide (t = None)) "AsyncContextFrame::tryUnwrap(js, promise) == nullptr";;
      wrapPromise p
  | kBefore =>
      t ← tryGetContext p;
      match t with
      | Some f => pushAsyncFrame f
      | None => throw (KjAssertion "the promise has no associated AsyncContextFrame")
      end
  | kAfter =>
      (if kj_debug then
         t ← tryGetContext p;
         match t with
         | Some f => c ← current; kj_assert (bool_decide (f = c)) "&frame == &AsyncContextFrame::current(js)"
         | None => throw (KjAssertion "the promise has no associated AsyncContextFrame")
         end
       else mret tt);;
      popAsyncFrame
  | kResolve =>
      t ← tryGetContext p;
      match t with
      | None => wrapPromise p
      | Some _ => mret tt
      end
  end.

End WithDebug.
End VB.

(** ** Scopes, wrapper functions and StorageScope *)

(** Outcome of a region guarded by a [Scope]: a destructor that throws while
    an exception is already propagating ends the process ([std::terminate]). *)
Inductive Run (A : Type) := Ran (r : Res A) (st : IsolateBase) | Terminated.
Arguments Ran {A} r st.
Arguments Terminated {A}.

(** A C++ block holding a [Scope]: [enter] is its constructor, [exit] its
    [noexcept(false)] destructor, which also runs while an exception from
    [body] unwinds the block. *)
Definition scoped {A} (enter exit : M unit) (body : M A) (st : IsolateBase) : Run A :=
  match enter st with
  | (Throw e, st1) => Ran (Throw e) st1
  | (Ok _, st1) =>
      match body st1 with
      | (Ok a, st2) =>
          match exit st2 with
          | (Ok _, st3) => Ran (Ok a) st3
          | (Throw e, st3) => Ran (Throw e) st3
          end
      | (Throw e, st2) =>
          match exit st2 with
          | (Ok _, st3) => Ran (Throw e) st3
          | (Throw _, _) => Terminated
          end
      end
  end.

(** Version A's [AsyncContextFrame::Scope] (lines 167-181): a missing frame
    means the root. *)
Definition scopeA {A} (kj_debug : bool) (frame : option FrameId) (body : M A) : IsolateBase -> Run A :=
  scoped (match frame with
          | Some f => pushAsyncFrame f
          | None => r ← VA.getRootAsyncContext; pushAsyncFrame r
          end)
         (VA.popAsyncFrame kj_debug) body.

(** Version B's [AsyncContextFrame::Scope] (lines 518-528). *)
Definition scopeB {A} (kj_debug : bool) (frame : FrameId) (body : M A) : IsolateBase -> Run A :=
  scoped (pushAsyncFrame frame) (VB.popAsyncFrame kj_debug) body.

(** The callback of the function returned by [wrap] (lines 114-143 and
    465-493): [fn] is its data. It reads the frame stored on [fn]
    ([KJ_ASSERT_NONNULL]), uses the stored [thisArg] or the global object,
    enters the frame with a [Scope] and calls [fn]; [call] is the engine's
    [fn->Call], answering [None] when the call left a JS exception pending. *)
Definition wrapperCallback (unwrapFailed : string) (pop : M unit)
    (call : nat -> Value -> list Value -> M (option Value))
    (globalThis : Value) (fn : nat) (args : list Value) (st : IsolateBase) : Run (option Value) :=
  match fnTags st !! fn with
  | None => Ran (Throw (KjAssertion unwrapFailed)) st
  | Some frame =>
      let thisArg := default globalThis (fnThisArg st !! fn) in
      scoped (pushAsyncFrame frame) pop (call fn thisArg args) st
  end.

(** Version A's callback (lines 114-143). *)
Definition wrapperCallbackA (kj_debug : bool) :=
  wrapperCallback "tryGetContextFrame(isolate, check(fn->GetPrivate(context, handle))) != nullptr"
    (VA.popAsyncFrame kj_debug).

(** Version B's callback (lines 465-493). *)
Definition wrapperCallbackB (kj_debug : bool) :=
  wrapperCallback "tryUnwrapFrame(isolate, check(fn->GetPrivate(context, handle))) != nullptr"
    (VB.popAsyncFrame kj_debug).

(** [AsyncContextFrame::StorageScope] (lines 183-191 and 530-538) around the
    block that holds it: a new child of the current frame with [key = store],
    entered by a [Scope] for the duration of [body]. *)
Definition storageScopeA {A} (kj_debug : bool) (k : StorageKey) (store : Value) (body : M A)
    (st : IsolateBase) : Run A :=
  match VA.create None (Some (mkEntry k store)) st with
  | (Ok f, st1) => scopeA kj_debug (Some f) body st1
  | (Throw e, st1) => Ran (Throw e) st1
  end.

Definition storageScopeB {A} (kj_debug : bool) (k : StorageKey) (store : Value) (body : M A)
    (st : IsolateBase) : Run A :=
  match VB.create kj_debug None (Some (mkEntry k store)) st with
  | (Ok f, st1) => scopeB kj_debug f body st1
  | (Throw e, st1) => Ran (Throw e) st1
  end.

(** The promise-hook installation state of an isolate. *)
Record TrackingState := mkTracking {
  asyncContextTrackingEnabled : bool;
  promiseHookInstalls : nat           (** calls made to [ptr->SetPromiseHook] *)
}.

(** [IsolateBase::setAsyncContextTrackingEnabled] (lines 219-227). *)
Definition setAsyncContextTrackingEnabled (ts : TrackingState) : TrackingState :=
  if asyncContextTrackingEnabled ts then ts
  else mkTracking true (S (promiseHookInstalls ts)).

(** ** Sample states *)

Definition emptyIsolate : IsolateBase :=
  mkIsolate [] None ∅ 0 ∅ ∅ ∅ ∅ ∅ 0 false [].

(** An isolate whose root (frame 0) is at the bottom of the stack and frame 1
    is a second frame. *)
Definition sampleIsolate (stack : list FrameId) (tags : gmap nat FrameId) : IsolateBase :=
  mkIsolate stack (Some 0) {[0 := ∅; 1 := ∅]} 2 ∅ tags ∅ ∅ ∅ 0 false [].

(** ** Proof infrastructure *)

(** Unfold the monad's plumbing. *)
Ltac mstep := unfold kj_dassert, kj_assert, mbind, M_bind, mret, M_ret, gets, modify, throw in *.

(** Table invariant of the hash-indexed storage: each row sits at its key's hash. *)
Definition StorageWf (s : Storage) : Prop :=
  map_Forall (fun h e => khash (key e) = h) s.

Global Instance StorageWf_dec (s : Storage) : Decision (StorageWf s).
Proof. unfold StorageWf. apply _. Defined.

Lemma eraseDead_lookup (st : IsolateBase) (s : Storage) h e :
  eraseDead st s !! h = Some e <-> s !! h = Some e /\ isDead st (key e) = false.
Proof.
  unfold eraseDead. rewrite map_lookup_filter_Some. simpl. tauto.
Qed.

Lemma eraseDead_live (st : IsolateBase) (s : Storage) :
  map_Forall (fun _ e => isDead st (key e) = false) (eraseDead st s).
Proof. intros h e He. apply eraseDead_lookup in He. tauto. Qed.

Lemma eraseDead_wf (st : IsolateBase) (s : Storage) :
  StorageWf s -> StorageWf (eraseDead st s).
Proof. intros Hwf h e He. apply eraseDead_lookup in He. apply (Hwf h e). tauto. Qed.

(** [eraseDead] only reads the set of dead keys. *)
Lemma eraseDead_deadKeys (st st' : IsolateBase) (s : Storage) :
  deadKeys st = deadKeys st' -> eraseDead st s = eraseDead st' s.
Proof. intros H. unfold eraseDead, isDead. by rewrite H. Qed.

Lemma storageOf_set_frames st fs n f :
  storageOf (set_frames fs n st) f = default ∅ (fs !! f).
Proof. reflexivity. Qed.

Lemma get_live (st : IsolateBase) (f : FrameId) (k : StorageKey) :
  isDead st k = false ->
  get f k st =
    (Ok (tableFind k (eraseDead st (storageOf st f))),
     set_frames (<[f := eraseDead st (storageOf st f)]> (frames st)) (nextFrame st) st).
Proof.
  intros Hlive. unfold get, getStorage, setStorage. mstep. rewrite Hlive. simpl.
  rewrite storageOf_set_frames, lookup_insert_eq. reflexivity.
Qed.

(** [get] on one frame leaves every other frame's storage as it was. *)
Lemma get_frame_local (st : IsolateBase) (g h : FrameId) (k : StorageKey) :
  g <> h -> frames (snd (get g k st)) !! h = frames st !! h.
Proof.
  intros Hne. destruct (isDead st k) eqn:Hd.
  - unfold get. mstep. rewrite Hd. reflexivity.
  - rewrite get_live by exact Hd. simpl. by rewrite lookup_insert_ne.
Qed.

(** ** C1: dead-key purge on [get] *)

Definition deadKey : StorageKey := mkKey 5 5.
Definition liveKey : StorageKey := mkKey 6 6.

(** Frame 0 holds an entry for [deadKey] (already reset) and one for [liveKey]. *)
Definition deadKeyIsolate : IsolateBase :=
  mkIsolate [0] (Some 0)
    {[0 := {[5 := mkEntry deadKey 10; 6 := mkEntry liveKey 11]}]} 1
    {[5]} ∅ ∅ ∅ ∅ 0 false [].

(** C1 (counterexample): [get] called with the dead key itself trips the
    [KJ_ASSERT(!key.isDead())] instead of answering "absent". *)
Lemma get_dead_key_asserts :
  get 0 deadKey deadKeyIsolate = (Throw (KjAssertion "!key.isDead()"), deadKeyIsolate).
Proof. reflexivity. Qed.

(** C1 (amended): [get] with a live key never fails; it first removes every
    entry whose key is dead from the frame's storage and answers from the
    purged table, which holds only live keys. [get] with a dead key trips
    its assertion and leaves the state untouched. *)
Theorem get_purges_dead_entries (st : IsolateBase) (f : FrameId) (k : StorageKey) :
  (isDead st k = false ->
     get f k st =
       (Ok (tableFind k (eraseDead st (storageOf st f))),
        set_frames (<[f := eraseDead st (storageOf st f)]> (frames st)) (nextFrame st) st)
     /\ map_Forall (fun _ e => isDead st (key e) = false) (eraseDead st (storageOf st f)))
  /\ (isDead st k = true -> get f k st = (Throw (KjAssertion "!key.isDead()"), st)).
Proof.
  split.
  - intros Hlive. split; [| apply eraseDead_live].
    exact (get_live st f k Hlive).
  - intros Hdead. unfold get. mstep. rewrite Hdead. reflexivity.
Qed.

Lemma get_purges_dead_entries_witness :
  isDead deadKeyIsolate liveKey = false /\
  get 0 liveKey deadKeyIsolate =
    (Ok (Some 11),
     set_frames (<[0 := {[6 := mkEntry liveKey 11]}]> (frames deadKeyIsolate)) 1 deadKeyIsolate).
Proof.
  split; [reflexivity |].
  destruct (proj1 (get_purges_dead_entries deadKeyIsolate 0 liveKey) eq_refl) as [H _].
  rewrite H. vm_compute. reflexivity.
Defined.

(** ** C2: popping the last frame *)

(** C2 (counterexample): version A pops the only frame of the stack (the
    debug check only rejects an empty stack), leaving the stack empty; so
    does version B without [KJ_DEBUG]. *)
Lemma pop_single_frame_succeeds :
  VA.popAsyncFrame true (sampleIsolate [0] ∅) = (Ok tt, sampleIsolate [] ∅)
  /\ VB.popAsyncFrame false (sampleIsolate [0] ∅) = (Ok tt, sampleIsolate [] ∅).
Proof. split; reflexivity. Qed.

Lemma VB_pop_ok_nonempty (st st' : IsolateBase) :
  VB.popAsyncFrame true st = (Ok tt, st') -> asyncFrameStack st' <> [].
Proof.
  unfold VB.popAsyncFrame. mstep.
  destruct (asyncFrameStack st) as [| x t]; [discriminate |].
  destruct t as [| y t]; simpl; [discriminate |].
  intros H. injection H as <-. discriminate.
Qed.

(** C2 (amended): in a [KJ_DEBUG] build, version B's [popAsyncFrame] pops and
    then asserts, so popping a one-element stack trips the assertion (after
    the element has been removed) and every successful pop leaves a
    non-empty stack. Version A (root kept off the stack) only checks, in
    debug builds, that the stack is non-empty before popping, so it pops a
    one-element stack to empty; version B without [KJ_DEBUG] does the same. *)
Theorem pop_last_frame (kj_debug : bool) (st : IsolateBase) (x : FrameId) :
  (forall st', VB.popAsyncFrame true st = (Ok tt, st') -> asyncFrameStack st' <> [])
  /\ (asyncFrameStack st = [x] ->
        VB.popAsyncFrame true st
          = (Throw (KjAssertion "the async context frame stack was corrupted"), set_stack [] st)
        /\ VB.popAsyncFrame false st = (Ok tt, set_stack [] st)
        /\ VA.popAsyncFrame kj_debug st = (Ok tt, set_stack [] st)).
Proof.
  split; [intros st'; apply VB_pop_ok_nonempty |].
  intros Hs. unfold VB.popAsyncFrame, VA.popAsyncFrame. mstep. rewrite Hs.
  destruct kj_debug; simpl; repeat split; reflexivity.
Qed.

Lemma pop_last_frame_witness :
  asyncFrameStack (sampleIsolate [0] ∅) = [0] /\
  VB.popAsyncFrame true (sampleIsolate [0] ∅)
    = (Throw (KjAssertion "the async context frame stack was corrupted"), sampleIsolate [] ∅).
Proof.
  split; [reflexivity |].
  exact (proj1 (proj2 (pop_last_frame true (sampleIsolate [0] ∅) 0) eq_refl)).
Defined.

(** ** C3: [current] *)

(** C3 (counterexample): version A's [current] on an empty stack does not
    assert; it answers the (lazily created) root frame. *)
Lemma current_empty_returns_root :
  VA.current emptyIsolate =
    (Ok 0, set_root (Some 0) (set_frames {[0 := ∅]} 1 emptyIsolate)).
Proof. reflexivity. Qed.

(** C3 (amended): on a non-empty stack both versions' [current] answer the
    front of the stack. On an empty stack version B trips its assertion,
    while version A answers the root frame, creating it on first use. *)
Theorem current_spec (st : IsolateBase) :
  (forall f t, asyncFrameStack st = f :: t ->
     VA.current st = (Ok f, st) /\ VB.current st = (Ok f, st))
  /\ (asyncFrameStack st = [] ->
        VB.current st = (Throw (KjAssertion "!isolateBase.asyncFrameStack.empty()"), st)
        /\ (forall r, rootAsyncFrame st = Some r -> VA.current st = (Ok r, st))
        /\ (rootAsyncFrame st = None ->
              VA.current st =
                (Ok (nextFrame st),
                 set_root (Some (nextFrame st))
                   (set_frames (<[nextFrame st := ∅]> (frames st)) (S (nextFrame st)) st)))).
Proof.
  unfold VA.current, VB.current, VA.getRootAsyncContext, allocFrame. mstep. split.
  - intros f t Hs. rewrite Hs. simpl. split; reflexivity.
  - intros Hs. rewrite Hs. simpl. split; [reflexivity |]. split.
    + intros r Hr. rewrite Hr. reflexivity.
    + intros Hr. rewrite Hr. simpl. rewrite Hs. reflexivity.
Qed.

Lemma current_spec_witness :
  asyncFrameStack emptyIsolate = [] /\
  VB.current emptyIsolate
    = (Throw (KjAssertion "!isolateBase.asyncFrameStack.empty()"), emptyIsolate).
Proof.
  split; [reflexivity |].
  exact (proj1 (proj2 (current_spec emptyIsolate) eq_refl)).
Defined.

(** ** Promise hook: shared facts *)

Lemma VA_hook_terminating (kj_debug : bool) (type : PromiseHookType) (p : Promise) (st : IsolateBase) :
  terminating st = true -> VA.promiseHook kj_debug type p st = (Ok tt, st).
Proof. intros Ht. unfold VA.promiseHook. mstep. by rewrite Ht. Qed.

Lemma VB_hook_terminating (kj_debug : bool) (type : PromiseHookType) (p : Promise) (st : IsolateBase) :
  terminating st = true -> VB.promiseHook kj_debug type p st = (Ok tt, st).
Proof. intros Ht. unfold VB.promiseHook. mstep. by rewrite Ht. Qed.

Ltac hook_unfold :=
  unfold VA.promiseHook, VB.promiseHook, VA.catchInternal, VA.attachContext, VB.wrapPromise,
    VA.isRoot, VA.current, VB.current, VA.getRootAsyncContext,
    VA.popAsyncFrame, VB.popAsyncFrame, tryGetContext, setPromiseTag,
    deletePromiseTag, pushAsyncFrame, allocFrame;
  mstep.

(** ** C4: kInit *)

(** C4 (counterexample): version B tags a promise created while the root is
    current (here the only frame on the stack, frame 0) with the root. *)
Lemma init_tags_root_in_B :
  VB.promiseHook true kInit (mkPromise 7 kPending) (sampleIsolate [0] ∅)
  = (Ok tt, sampleIsolate [0] {[7 := 0]}).
Proof. reflexivity. Qed.

(** C4 (amended): while the isolate is terminating or dead both hooks do
    nothing. Otherwise, for an untagged promise, version A leaves it untagged
    when the current frame is the root (the root is the stack top, or the
    stack is empty) and tags it with exactly the current frame otherwise;
    version B tags it with the current frame (the stack top) in every case,
    root included. *)
Theorem promiseHook_init (kj_debug : bool) (st : IsolateBase) (p : Promise) :
  (terminating st = true ->
     VA.promiseHook kj_debug kInit p st = (Ok tt, st)
     /\ VB.promiseHook kj_debug kInit p st = (Ok tt, st))
  /\ (terminating st = false -> promiseTags st !! pid p = None ->
       (forall r t, rootAsyncFrame st = Some r -> asyncFrameStack st = r :: t ->
          VA.promiseHook kj_debug kInit p st = (Ok tt, st))
       /\ (asyncFrameStack st = [] ->
             fst (VA.promiseHook kj_debug kInit p st) = Ok tt
             /\ promiseTags (snd (VA.promiseHook kj_debug kInit p st)) = promiseTags st)
       /\ (forall r f t, rootAsyncFrame st = Some r -> asyncFrameStack st = f :: t -> f <> r ->
             VA.promiseHook kj_debug kInit p st
             = (Ok tt, set_promiseTags (<[pid p := f]> (promiseTags st)) st))
       /\ (forall f t, asyncFrameStack st = f :: t ->
             VB.promiseHook kj_debug kInit p st
             = (Ok tt, set_promiseTags (<[pid p := f]> (promiseTags st)) st))).
Proof.
  split.
  { intros Ht. split; [apply VA_hook_terminating | apply VB_hook_terminating]; exact Ht. }
  intros Ht Hp. refine (conj _ (conj _ (conj _ _))).
  - intros r t Hr Hs. hook_unfold. rewrite Ht, Hs. simpl. rewrite Hr. simpl.
    rewrite bool_decide_true by reflexivity. reflexivity.
  - intros Hs. split; hook_unfold; rewrite Ht, Hs; simpl;
    destruct (rootAsyncFrame st) as [r |] eqn:Hr; simpl.
    + rewrite Hr. simpl. rewrite bool_decide_true by reflexivity. reflexivity.
    + rewrite Hs. simpl. rewrite bool_decide_true by reflexivity. reflexivity.
    + rewrite Hr. simpl. rewrite bool_decide_true by reflexivity. reflexivity.
    + rewrite Hs. simpl. rewrite bool_decide_true by reflexivity. reflexivity.
  - intros r f t Hr Hs Hne. hook_unfold. rewrite Ht, Hs. simpl. rewrite Hr. simpl.
    rewrite bool_decide_false by congruence. simpl. rewrite Hp. simpl.
    destruct kj_debug; simpl; rewrite ?Hp; simpl; rewrite Hs; reflexivity.
  - intros f t Hs. hook_unfold. rewrite Ht. simpl. rewrite Hp.
    destruct kj_debug; simpl; rewrite ?Hp; simpl; rewrite Hs; simpl; reflexivity.
Qed.

Lemma promiseHook_init_witness :
  terminating (sampleIsolate [1; 0] ∅) = false /\
  VA.promiseHook true kInit (mkPromise 7 kPending) (sampleIsolate [1; 0] ∅)
  = (Ok tt, sampleIsolate [1; 0] {[7 := 1]}).
Proof.
  split; [reflexivity |].
  exact (proj1 (proj2 (proj2 (proj2 (promiseHook_init true (sampleIsolate [1; 0] ∅)
           (mkPromise 7 kPending)) eq_refl eq_refl))) 0 1 [0] eq_refl eq_refl ltac:(lia)).
Defined.

(** ** C5: kBefore *)

(** C5 (counterexample): version B's kBefore on an untagged promise trips
    [KJ_ASSERT_NONNULL] and pushes nothing. *)
Lemma before_untagged_B_pushes_nothing :
  VB.promiseHook false kBefore (mkPromise 7 kFulfilled) (sampleIsolate [0] ∅)
  = (Throw (KjAssertion "the promise has no associated AsyncContextFrame"), sampleIsolate [0] ∅).
Proof. reflexivity. Qed.

(** C5 (amended): while the isolate is terminating or dead both hooks push
    nothing. Otherwise version A's kBefore pushes exactly one frame, the
    promise's tag when present and the root when absent (if the stack is
    empty and no root exists yet, a fresh frame with an empty table is first
    recorded as the root, whatever the tag); version B's kBefore
    pushes exactly the tag for a tagged promise and, for an untagged one,
    trips its assertion without pushing. *)
Theorem promiseHook_before (kj_debug : bool) (st : IsolateBase) (p : Promise) :
  (terminating st = true ->
     VA.promiseHook kj_debug kBefore p st = (Ok tt, st)
     /\ VB.promiseHook kj_debug kBefore p st = (Ok tt, st))
  /\ (terminating st = false ->
       (forall r, rootAsyncFrame st = Some r ->
          VA.promiseHook kj_debug kBefore p st
          = (Ok tt, set_stack (default r (promiseTags st !! pid p) :: asyncFrameStack st) st))
       /\ (rootAsyncFrame st = None -> asyncFrameStack st = [] ->
             VA.promiseHook kj_debug kBefore p st
             = (Ok tt, set_stack [default (nextFrame st) (promiseTags st !! pid p)]
                         (set_root (Some (nextFrame st))
                            (set_frames (<[nextFrame st := ∅]> (frames st)) (S (nextFrame st)) st))))
       /\ (forall f, promiseTags st !! pid p = Some f ->
             VB.promiseHook kj_debug kBefore p st = (Ok tt, set_stack (f :: asyncFrameStack st) st))
       /\ (promiseTags st !! pid p = None ->
             VB.promiseHook kj_debug kBefore p st
             = (Throw (KjAssertion "the promise has no associated AsyncContextFrame"), st))).
Proof.
  split.
  { intros Ht. split; [apply VA_hook_terminating | apply VB_hook_terminating]; exact Ht. }
  intros Ht. refine (conj _ (conj _ (conj _ _))).
  - intros r Hr. hook_unfold. rewrite Ht. simpl.
    destruct (asyncFrameStack st) as [| f t] eqn:Hs; simpl; rewrite ?Hr; simpl;
      destruct (promiseTags st !! pid p) as [g |] eqn:Hp; simpl; rewrite ?Hr; simpl;
      rewrite ?Hs; reflexivity.
  - intros Hr Hs. hook_unfold. rewrite Ht, Hs. simpl. rewrite Hr, Hs. simpl.
    destruct (promiseTags st !! pid p) as [g |] eqn:Hp; simpl; rewrite ?Hp; simpl; rewrite ?Hs; reflexivity.
  - intros f Hp. hook_unfold. rewrite Ht. simpl. rewrite Hp. reflexivity.
  - intros Hp. hook_unfold. rewrite Ht. simpl. rewrite Hp. reflexivity.
Qed.

Lemma promiseHook_before_witness :
  terminating (sampleIsolate [1; 0] ∅) = false /\
  VA.promiseHook true kBefore (mkPromise 7 kFulfilled) (sampleIsolate [1; 0] ∅)
  = (Ok tt, sampleIsolate [0; 1; 0] ∅).
Proof.
  split; [reflexivity |].
  exact (proj1 (proj2 (promiseHook_before true (sampleIsolate [1; 0] ∅)
           (mkPromise 7 kFulfilled)) eq_refl) 0 eq_refl).
Defined.

(** ** C6: kAfter and tag retention *)

Lemma VB_after_keeps_tags (kj_debug : bool) (st : IsolateBase) (p : Promise) :
  promiseTags (snd (VB.promiseHook kj_debug kAfter p st)) = promiseTags st.
Proof.
  hook_unfold. destruct (terminating st); simpl; [reflexivity |].
  destruct kj_debug; simpl.
  - destruct (promiseTags st !! pid p); simpl; [| reflexivity].
    destruct (asyncFrameStack st) as [| x t] eqn:Hs; simpl; [reflexivity |].
    case_bool_decide; simpl; [| reflexivity]. rewrite Hs.
    destruct t; simpl; reflexivity.
  - destruct (asyncFrameStack st) as [| x t]; simpl; [reflexivity |].
    reflexivity.
Qed.

(** C6 (counterexample): version B never erases a tag in kAfter, so a
    promise that settled fulfilled still answers its frame afterwards. *)
Lemma after_fulfilled_B_keeps_tag :
  VB.promiseHook true kAfter (mkPromise 7 kFulfilled) (sampleIsolate [1; 0] {[7 := 1]})
  = (Ok tt, sampleIsolate [0] {[7 := 1]}).
Proof. reflexivity. Qed.

(** C6 (amended): while the isolate is terminating or dead both hooks do
    nothing. Otherwise version A's kAfter, delivered with the frame kBefore
    pushed for this promise on top of the stack (its tag, or the root when
    untagged), pops it, keeps the tag of a rejected promise and erases the
    tag of a fulfilled one; version B's kAfter never changes any promise's
    tag, so a fulfilled promise keeps answering its frame. *)
Theorem promiseHook_after (kj_debug : bool) (st : IsolateBase) (p : Promise) :
  (terminating st = true ->
     VA.promiseHook kj_debug kAfter p st = (Ok tt, st)
     /\ VB.promiseHook kj_debug kAfter p st = (Ok tt, st))
  /\ (terminating st = false ->
       forall r rest, rootAsyncFrame st = Some r ->
         asyncFrameStack st = default r (promiseTags st !! pid p) :: rest ->
         VA.promiseHook kj_debug kAfter p st
         = (Ok tt, set_promiseTags
                     (if isRejected p then promiseTags st else delete (pid p) (promiseTags st))
                     (set_stack rest st)))
  /\ promiseTags (snd (VB.promiseHook kj_debug kAfter p st)) = promiseTags st.
Proof.
  refine (conj _ (conj _ (VB_after_keeps_tags kj_debug st p))).
  { intros Ht. split; [apply VA_hook_terminating | apply VB_hook_terminating]; exact Ht. }
  intros Ht r rest Hr Hs. hook_unfold. rewrite Ht, Hs. simpl.
  destruct kj_debug; simpl.
  - destruct (promiseTags st !! pid p) as [g |] eqn:Hp; simpl.
    + rewrite bool_decide_true by reflexivity. simpl. rewrite Hs. simpl.
      destruct (isRejected p); reflexivity.
    + rewrite Hr. simpl. rewrite bool_decide_true by reflexivity. simpl. rewrite Hs. simpl.
      destruct (isRejected p); reflexivity.
  - rewrite Hs. simpl. destruct (isRejected p); reflexivity.
Qed.

Lemma promiseHook_after_witness :
  terminating (sampleIsolate [1; 0] {[7 := 1]}) = false /\
  VA.promiseHook true kAfter (mkPromise 7 kRejected) (sampleIsolate [1; 0] {[7 := 1]})
  = (Ok tt, sampleIsolate [0] {[7 := 1]}).
Proof.
  split; [reflexivity |].
  exact (proj1 (proj2 (promiseHook_after true (sampleIsolate [1; 0] {[7 := 1]})
           (mkPromise 7 kRejected))) eq_refl 0 [0] eq_refl eq_refl).
Defined.

(** ** C7: kResolve *)

(** C7 (counterexample): version B's kResolve tags an untagged promise even
    when it is fulfilled. *)
Lemma resolve_fulfilled_B_tags :
  VB.promiseHook true kResolve (mkPromise 7 kFulfilled) (sampleIsolate [1; 0] ∅)
  = (Ok tt, sampleIsolate [1; 0] {[7 := 1]}).
Proof. reflexivity. Qed.

(** C7 (amended): while the isolate is terminating or dead both hooks do
    nothing. Otherwise version A's kResolve tags the promise with the
    current frame exactly when the current frame is not the root, the
    promise is rejected and it is untagged, and leaves every tag unchanged
    in all other cases (an empty stack means the root is current); version B's
    kResolve tags every untagged promise with the current frame, whatever
    its state and whether or not the current frame is the root. *)
Theorem promiseHook_resolve (kj_debug : bool) (st : IsolateBase) (p : Promise) :
  (terminating st = true ->
     VA.promiseHook kj_debug kResolve p st = (Ok tt, st)
     /\ VB.promiseHook kj_debug kResolve p st = (Ok tt, st))
  /\ (terminating st = false ->
       (forall r f t, rootAsyncFrame st = Some r -> asyncFrameStack st = f :: t ->
          VA.promiseHook kj_debug kResolve p st
          = (Ok tt, if bool_decide (f <> r) && isRejected p
                       && bool_decide (promiseTags st !! pid p = None)
                    then set_promiseTags (<[pid p := f]> (promiseTags st)) st else st))
       /\ (asyncFrameStack st = [] ->
             fst (VA.promiseHook kj_debug kResolve p st) = Ok tt
             /\ promiseTags (snd (VA.promiseHook kj_debug kResolve p st)) = promiseTags st)
       /\ (forall f t, asyncFrameStack st = f :: t ->
             VB.promiseHook kj_debug kResolve p st
             = (Ok tt, if bool_decide (promiseTags st !! pid p = None)
                       then set_promiseTags (<[pid p := f]> (promiseTags st)) st else st))).
Proof.
  split.
  { intros Ht. split; [apply VA_hook_terminating | apply VB_hook_terminating]; exact Ht. }
  intros Ht. refine (conj _ (conj _ _)).
  - intros r f t Hr Hs. hook_unfold. rewrite Ht, Hs. simpl. rewrite Hr. simpl.
    destruct (decide (f = r)) as [-> | Hne].
    + rewrite bool_decide_true by reflexivity.
      rewrite (bool_decide_false (r <> r)) by (intros Hn; apply Hn; reflexivity). reflexivity.
    + rewrite bool_decide_false by congruence. rewrite (bool_decide_true (f <> r)) by exact Hne.
      simpl. destruct (isRejected p); simpl; [| reflexivity].
      destruct (promiseTags st !! pid p) as [g |] eqn:Hp; simpl; [reflexivity |].
      rewrite Hp. destruct kj_debug; simpl; rewrite ?Hp; simpl; rewrite Hs; reflexivity.
  - intros Hs. split; hook_unfold; rewrite Ht, Hs; simpl;
    destruct (rootAsyncFrame st) as [r |] eqn:Hr; simpl.
    + rewrite Hr. simpl. rewrite bool_decide_true by reflexivity. reflexivity.
    + rewrite Hs. simpl. rewrite bool_decide_true by reflexivity. reflexivity.
    + rewrite Hr. simpl. rewrite bool_decide_true by reflexivity. reflexivity.
    + rewrite Hs. simpl. rewrite bool_decide_true by reflexivity. reflexivity.
  - intros f t Hs. hook_unfold. rewrite Ht. simpl.
    destruct (promiseTags st !! pid p) as [g |] eqn:Hp; simpl; [reflexivity |].
    rewrite Hp. simpl. rewrite Hs. reflexivity.
Qed.

Lemma promiseHook_resolve_witness :
  terminating (sampleIsolate [1; 0] ∅) = false /\
  VA.promiseHook true kResolve (mkPromise 7 kRejected) (sampleIsolate [1; 0] ∅)
  = (Ok tt, sampleIsolate [1; 0] {[7 := 1]}).
Proof.
  split; [reflexivity |].
  exact (proj1 (proj2 (promiseHook_resolve true (sampleIsolate [1; 0] ∅)
           (mkPromise 7 kRejected)) eq_refl) 0 1 [0] eq_refl eq_refl).
Defined.

(** ** Frame creation: storage lemmas *)

Lemma clone_id (e : StorageEntry) : clone e = e.
Proof. by destruct e. Qed.

Lemma insertAll_spec (l : list (nat * StorageEntry)) (acc : Storage) :
  NoDup l.*1 ->
  (forall h e, (h, e) ∈ l -> khash (key e) = h) ->
  (forall h, h ∈ l.*1 -> acc !! h = None) ->
  insertAll l acc = Some (list_to_map l ∪ acc).
Proof.
  revert acc. induction l as [| [h e] l IH]; intros acc Hnd Hk Hacc; simpl.
  - by rewrite (left_id_L ∅ (∪)).
  - rewrite clone_id. unfold tableInsert.
    assert (Hh : khash (key e) = h) by (apply Hk; left).
    rewrite Hh, Hacc by (left).
    apply NoDup_cons in Hnd as [Hnin Hnd].
    rewrite IH.
    + f_equal. rewrite <- insert_union_r by (by apply not_elem_of_list_to_map_1).
      by rewrite insert_union_l.
    + exact Hnd.
    + intros h' e' Hin. apply Hk. by right.
    + intros h' Hin. rewrite lookup_insert_ne by (intros ->; contradiction).
      apply Hacc. by right.
Qed.

(** Cloning every row of a well-formed table into an empty table rebuilds it. *)
Lemma insertAll_clone_table (s : Storage) :
  StorageWf s -> insertAll (map_to_list s) ∅ = Some s.
Proof.
  intros Hwf. rewrite insertAll_spec.
  - by rewrite list_to_map_to_list, (right_id_L ∅ (∪)).
  - apply NoDup_fst_map_to_list.
  - intros h e Hin. apply elem_of_map_to_list in Hin. exact (Hwf h e Hin).
  - intros h _. apply lookup_empty.
Qed.

(** The storage a child gets from [propagate]: the parent's live rows, then
    the override upserted. *)
Definition childStorage (ps : Storage) (maybeStorageEntry : option StorageEntry) : Storage :=
  match maybeStorageEntry with
  | Some e => tableUpsert e ps
  | None => ps
  end.

Lemma propagate_spec (chk : Storage -> M unit) (c P : FrameId)
    (ov : option StorageEntry) (st : IsolateBase) :
  P <> c -> storageOf st c = ∅ -> StorageWf (storageOf st P) ->
  (forall st0, chk ∅ st0 = (Ok tt, st0)) ->
  propagate chk c P ov st
  = (Ok tt, set_frames (<[c := childStorage (eraseDead st (storageOf st P)) ov]>
                          (<[P := eraseDead st (storageOf st P)]> (frames st)))
              (nextFrame st) st).
Proof.
  intros HPc Hc Hwf Hchk. unfold propagate, getStorage, setStorage. mstep. simpl.
  rewrite storageOf_set_frames, lookup_insert_ne by congruence. fold (storageOf st c).
  rewrite Hc, Hchk. simpl.
  rewrite storageOf_set_frames, lookup_insert_eq. simpl.
  rewrite insertAll_clone_table by (by apply eraseDead_wf). simpl.
  destruct ov as [e |]; simpl.
  - rewrite storageOf_set_frames, lookup_insert_eq. simpl.
    by rewrite insert_insert_eq.
  - reflexivity.
Qed.

(** The state after creating a frame with an explicit parent [P]. *)
Definition createdState (P : FrameId) (ov : option StorageEntry) (st : IsolateBase) : IsolateBase :=
  set_frames (<[nextFrame st := childStorage (eraseDead st (storageOf st P)) ov]>
                (<[P := eraseDead st (storageOf st P)]> (frames st)))
    (S (nextFrame st)) st.

Lemma create_alloc_propagate (chk : Storage -> M unit) (P : FrameId) (ov : option StorageEntry)
    (st : IsolateBase) :
  P < nextFrame st -> StorageWf (storageOf st P) ->
  (forall st0, chk ∅ st0 = (Ok tt, st0)) ->
  (c ← allocFrame; p ← mret P; propagate chk c p ov;; mret c) st
  = (Ok (nextFrame st), createdState P ov st).
Proof.
  intros HP Hwf Hchk. unfold allocFrame. mstep. simpl.
  rewrite (propagate_spec chk (nextFrame st) P).
  - simpl. unfold createdState. f_equal.
    rewrite storageOf_set_frames, lookup_insert_ne by lia. fold (storageOf st P).
    rewrite (eraseDead_deadKeys _ st) by reflexivity.
    rewrite (insert_insert_ne _ P (nextFrame st)) by lia.
    by rewrite insert_insert_eq.
  - lia.
  - by rewrite storageOf_set_frames, lookup_insert_eq.
  - rewrite storageOf_set_frames, lookup_insert_ne by lia. exact Hwf.
  - exact Hchk.
Qed.

Lemma VA_create_parent (P : FrameId) (ov : option StorageEntry) (st : IsolateBase) :
  P < nextFrame st -> StorageWf (storageOf st P) ->
  VA.create (Some P) ov st = (Ok (nextFrame st), createdState P ov st).
Proof.
  intros HP Hwf. unfold VA.create.
  apply (create_alloc_propagate (fun _ => mret tt)); [exact HP | exact Hwf | reflexivity].
Qed.

Lemma VB_create_parent (kj_debug : bool) (P : FrameId) (ov : option StorageEntry) (st : IsolateBase) :
  P < nextFrame st -> StorageWf (storageOf st P) ->
  VB.create kj_debug (Some P) ov st = (Ok (nextFrame st), createdState P ov st).
Proof.
  intros HP Hwf. unfold VB.create.
  apply create_alloc_propagate; [exact HP | exact Hwf |].
  intros st0. mstep. destruct kj_debug; [| reflexivity].
  rewrite bool_decide_true by apply map_size_empty. reflexivity.
Qed.

Lemma createdState_deadKeys (P : FrameId) (ov : option StorageEntry) (st : IsolateBase) :
  deadKeys (createdState P ov st) = deadKeys st.
Proof. reflexivity. Qed.

Lemma upsert_live_find (st : IsolateBase) (ps : Storage) (K : StorageKey) (v : Value) :
  map_Forall (fun _ e => isDead st (key e) = false) ps -> isDead st K = false ->
  tableFind K (eraseDead st (tableUpsert (mkEntry K v) ps)) = Some v.
Proof.
  intros Hps HK. unfold tableFind, tableUpsert. simpl.
  destruct (ps !! khash K) as [ex |] eqn:Hex.
  - assert (Hl : eraseDead st (<[khash K := mkEntry (key ex) v]> ps) !! khash K
                 = Some (mkEntry (key ex) v)).
    { apply eraseDead_lookup. split; [apply lookup_insert_eq |]. exact (Hps _ ex Hex). }
    by rewrite Hl.
  - assert (Hl : eraseDead st (<[khash K := mkEntry K v]> ps) !! khash K = Some (mkEntry K v)).
    { apply eraseDead_lookup. split; [apply lookup_insert_eq | exact HK]. }
    by rewrite Hl.
Qed.

(** ** C8: the override wins over the inherited value *)

(** C8: creating a child of [P] with the override [(K, V2)] while [P] holds
    [K = V1] (in either version) yields a child whose [get(K)] answers [V2]:
    the override is upserted after the inherited rows are cloned. [K] is a
    live key ([get] asserts that). *)
Theorem create_override_wins (kj_debug : bool) (P : FrameId) (K : StorageKey) (V1 V2 : Value)
    (st : IsolateBase) :
  P < nextFrame st -> StorageWf (storageOf st P) -> isDead st K = false ->
  tableFind K (storageOf st P) = Some V1 ->
  VA.create (Some P) (Some (mkEntry K V2)) st
    = (Ok (nextFrame st), createdState P (Some (mkEntry K V2)) st)
  /\ VB.create kj_debug (Some P) (Some (mkEntry K V2)) st
    = (Ok (nextFrame st), createdState P (Some (mkEntry K V2)) st)
  /\ fst (get (nextFrame st) K (createdState P (Some (mkEntry K V2)) st)) = Ok (Some V2).
Proof.
  intros HP Hwf HK _.
  refine (conj (VA_create_parent _ _ _ HP Hwf) (conj (VB_create_parent _ _ _ _ HP Hwf) _)).
  rewrite get_live by exact HK. simpl. f_equal.
  unfold storageOf at 1. simpl. rewrite lookup_insert_eq. simpl.
  rewrite (eraseDead_deadKeys _ st) by reflexivity.
  apply upsert_live_find; [apply eraseDead_live | exact HK].
Qed.

Definition inheritIsolate : IsolateBase :=
  mkIsolate [0] (Some 0) {[0 := ∅; 1 := {[6 := mkEntry liveKey 1]}]} 2 ∅ ∅ ∅ ∅ ∅ 0 false [].

Lemma create_override_wins_witness :
  1 < nextFrame inheritIsolate /\ isDead inheritIsolate liveKey = false /\
  fst (get 2 liveKey (createdState 1 (Some (mkEntry liveKey 2)) inheritIsolate)) = Ok (Some 2).
Proof.
  split; [vm_compute; lia |]. split; [reflexivity |].
  refine (proj2 (proj2 (create_override_wins true 1 liveKey 1 2 inheritIsolate
            ltac:(vm_compute; lia) _ eq_refl eq_refl))).
  apply (bool_decide_unpack _). vm_compute. exact I.
Defined.

(** ** C9: the inherited storage is a snapshot *)

Lemma fmap_clone_id (s : Storage) : clone <$> s = s.
Proof.
  apply map_eq. intros i. rewrite lookup_fmap.
  destruct (s !! i); simpl; [by rewrite clone_id | reflexivity].
Qed.

Lemma createdState_frame_local (P : FrameId) (ov : option StorageEntry) (st : IsolateBase) (h : FrameId) :
  h <> nextFrame st -> h <> P -> frames (createdState P ov st) !! h = frames st !! h.
Proof. intros H1 H2. simpl. by rewrite !lookup_insert_ne by congruence. Qed.

(** C9: creating a child [C] of [P] (either version) gives [C] a storage
    equal to the clone of [P]'s live rows (with the optional override entry
    upserted on top; without one, exactly the clone). Afterwards [get] on
    [P] never changes [C]'s storage, [get] on [C] never changes [P]'s,
    creating further children of [P] (which purges [P]'s table) leaves [C]'s
    storage as it is, and creating children of [C] (which purges [C]'s
    table) leaves [P]'s storage as it is. These are the only operations that
    rewrite an existing frame's table. *)
Theorem create_snapshot_isolated (kj_debug : bool) (P : FrameId) (ov : option StorageEntry)
    (st : IsolateBase) :
  P < nextFrame st -> StorageWf (storageOf st P) ->
  VA.create (Some P) ov st = (Ok (nextFrame st), createdState P ov st)
  /\ VB.create kj_debug (Some P) ov st = (Ok (nextFrame st), createdState P ov st)
  /\ storageOf (createdState P ov st) (nextFrame st)
     = childStorage (clone <$> eraseDead st (storageOf st P)) ov
  /\ (forall (st' : IsolateBase) (k : StorageKey),
        frames (snd (get P k st')) !! nextFrame st = frames st' !! nextFrame st)
  /\ (forall (st' : IsolateBase) (k : StorageKey),
        frames (snd (get (nextFrame st) k st')) !! P = frames st' !! P)
  /\ (forall (st' : IsolateBase) (ov' : option StorageEntry),
        nextFrame st < nextFrame st' -> P < nextFrame st' -> StorageWf (storageOf st' P) ->
        frames (snd (VA.create (Some P) ov' st')) !! nextFrame st = frames st' !! nextFrame st
        /\ frames (snd (VB.create kj_debug (Some P) ov' st')) !! nextFrame st
           = frames st' !! nextFrame st)
  /\ (forall (st' : IsolateBase) (ov' : option StorageEntry),
        nextFrame st < nextFrame st' -> StorageWf (storageOf st' (nextFrame st)) ->
        frames (snd (VA.create (Some (nextFrame st)) ov' st')) !! P = frames st' !! P
        /\ frames (snd (VB.create kj_debug (Some (nextFrame st)) ov' st')) !! P
           = frames st' !! P).
Proof.
  intros HP Hwf.
  refine (conj (VA_create_parent _ _ _ HP Hwf)
            (conj (VB_create_parent _ _ _ _ HP Hwf) (conj _ (conj _ (conj _ (conj _ _)))))).
  - unfold storageOf at 1. simpl. rewrite lookup_insert_eq. simpl.
    by rewrite fmap_clone_id.
  - intros st' k. apply get_frame_local. lia.
  - intros st' k. apply get_frame_local. lia.
  - intros st' ov' Hlt HP' Hwf'.
    rewrite VA_create_parent, VB_create_parent by assumption. simpl.
    split; apply createdState_frame_local; lia.
  - intros st' ov' Hlt Hwf'.
    rewrite VA_create_parent, VB_create_parent by assumption. simpl.
    split; apply createdState_frame_local; lia.
Qed.

Lemma create_snapshot_isolated_witness :
  1 < nextFrame inheritIsolate /\
  storageOf (createdState 1 None inheritIsolate) (nextFrame inheritIsolate)
  = {[6 := mkEntry liveKey 1]}.
Proof.
  split; [vm_compute; lia |].
  rewrite (proj1 (proj2 (proj2 (create_snapshot_isolated true 1 None inheritIsolate
             ltac:(vm_compute; lia) ltac:(apply (bool_decide_unpack _); vm_compute; exact I))))).
  vm_compute. reflexivity.
Defined.

(** ** C10: wrapping a function twice *)

Definition wrappedIsolate : IsolateBase :=
  mkIsolate [1; 0] (Some 0) {[0 := ∅; 1 := ∅]} 2 ∅ ∅ {[3 := 1]} ∅ {[4 := 3]} 5 false [].

(** C10: wrapping a function that already carries the ASYNC_RESOURCE private
    throws the TypeError "This function has already been associated with an
    async context." (both versions) and leaves the whole isolate state, in
    particular the frame stack and the function's existing association,
    unchanged. *)
Theorem wrap_already_wrapped (st : IsolateBase) (fn : nat) (thisArg : option Value) (f0 : FrameId) :
  fnTags st !! fn = Some f0 ->
  VA.wrap fn thisArg st
    = (Throw (JsgTypeError "This function has already been associated with an async context."), st)
  /\ VB.wrap fn thisArg st
    = (Throw (JsgTypeError "This function has already been associated with an async context."), st).
Proof.
  intros Hf. unfold VA.wrap, VB.wrap, wrapFunction. mstep. rewrite Hf.
  rewrite bool_decide_true by (eexists; reflexivity). split; reflexivity.
Qed.

Lemma wrap_already_wrapped_witness :
  fnTags wrappedIsolate !! 3 = Some 1 /\
  VB.wrap 3 None wrappedIsolate
    = (Throw (JsgTypeError "This function has already been associated with an async context."),
       wrappedIsolate).
Proof.
  split; [reflexivity |].
  exact (proj2 (wrap_already_wrapped wrappedIsolate 3 None 1 eq_refl)).
Defined.

(** * Scopes, wrappers, storage scopes and hook sequences *)

(** A body that returns with the stack it started on, also when it throws. *)
Definition Balanced {A} (body : M A) (s : list FrameId) : Prop :=
  forall st, asyncFrameStack st = s -> asyncFrameStack (snd (body st)) = s.

Lemma set_stack_stack (s : list FrameId) (st : IsolateBase) :
  asyncFrameStack (set_stack s st) = s.
Proof. reflexivity. Qed.

Lemma set_stack_twice (s s' : list FrameId) (st : IsolateBase) :
  set_stack s (set_stack s' st) = set_stack s st.
Proof. reflexivity. Qed.

Lemma set_stack_id (st : IsolateBase) : set_stack (asyncFrameStack st) st = st.
Proof. by destruct st. Qed.

Lemma VA_pop_cons (kj_debug : bool) (st : IsolateBase) (f : FrameId) (t : list FrameId) :
  asyncFrameStack st = f :: t -> VA.popAsyncFrame kj_debug st = (Ok tt, set_stack t st).
Proof.
  intros Hs. unfold VA.popAsyncFrame. mstep. rewrite Hs.
  rewrite (bool_decide_false (f :: t = [])) by discriminate.
  destruct kj_debug; reflexivity.
Qed.

Lemma VB_pop_cons (kj_debug : bool) (st : IsolateBase) (f : FrameId) (t : list FrameId) :
  asyncFrameStack st = f :: t -> (kj_debug = false \/ t <> []) ->
  VB.popAsyncFrame kj_debug st = (Ok tt, set_stack t st).
Proof.
  intros Hs Hd. unfold VB.popAsyncFrame. mstep. rewrite Hs. simpl.
  destruct kj_debug; [| reflexivity].
  destruct Hd as [Hd | Hd]; [discriminate |].
  rewrite (bool_decide_false (t = [])) by exact Hd. reflexivity.
Qed.

(** A block whose [Scope] pushes [f] and whose exit pops it again. *)
Lemma scoped_push_pop {A} (exit : M unit) (body : M A) (f : FrameId) (st : IsolateBase) :
  Balanced body (f :: asyncFrameStack st) ->
  (forall st', asyncFrameStack st' = f :: asyncFrameStack st ->
     exit st' = (Ok tt, set_stack (asyncFrameStack st) st')) ->
  scoped (pushAsyncFrame f) exit body st
  = Ran (fst (body (set_stack (f :: asyncFrameStack st) st)))
        (set_stack (asyncFrameStack st) (snd (body (set_stack (f :: asyncFrameStack st) st)))).
Proof.
  intros Hb Hexit. unfold scoped, pushAsyncFrame. mstep. simpl.
  pose proof (Hb (set_stack (f :: asyncFrameStack st) st) eq_refl) as Hb'.
  destruct (body (set_stack (f :: asyncFrameStack st) st)) as [r st2] eqn:Hbody.
  simpl in Hb'. rewrite (Hexit st2 Hb').
  destruct r; reflexivity.
Qed.

(** X1: version A's [Scope] on a frame [f] runs the block with [f] pushed on
    top of the stack (so [f] is the current frame inside), passes through the
    block's result or exception, and its destructor restores the stack the
    block started from, whether or not [KJ_DEBUG] is on. *)
Theorem scopeA_restores_stack {A} (kj_debug : bool) (f : FrameId) (body : M A) (st : IsolateBase) :
  Balanced body (f :: asyncFrameStack st) ->
  scopeA kj_debug (Some f) body st
  = Ran (fst (body (set_stack (f :: asyncFrameStack st) st)))
        (set_stack (asyncFrameStack st) (snd (body (set_stack (f :: asyncFrameStack st) st)))).
Proof.
  intros Hb. unfold scopeA. apply scoped_push_pop; [exact Hb |].
  intros st' Hs. by apply (VA_pop_cons kj_debug st' f).
Qed.

Definition idBody : M nat := mret 42.

Lemma scopeA_restores_stack_witness :
  Balanced idBody (1 :: asyncFrameStack (sampleIsolate [0] ∅)) /\
  scopeA true (Some 1) idBody (sampleIsolate [0] ∅) = Ran (Ok 42) (sampleIsolate [0] ∅).
Proof.
  split; [intros st Hs; exact Hs |].
  rewrite (scopeA_restores_stack true 1 idBody (sampleIsolate [0] ∅)); [reflexivity |].
  intros st Hs; exact Hs.
Defined.

(** The state right after version A creates its root frame. *)
Definition rootCreated (st : IsolateBase) : IsolateBase :=
  set_root (Some (nextFrame st))
    (set_frames (<[nextFrame st := ∅]> (frames st)) (S (nextFrame st)) st).





(** X3: version B's [Scope] on [f] runs the block with [f] on top of the
    stack, passes through its result or exception, and restores the stack on
    exit, provided [KJ_DEBUG] is off or the stack was not empty on entry. *)
Theorem scopeB_restores_stack {A} (kj_debug : bool) (f : FrameId) (body : M A) (st : IsolateBase) :
  (kj_debug = false \/ asyncFrameStack st <> []) ->
  Balanced body (f :: asyncFrameStack st) ->
  scopeB kj_debug f body st
  = Ran (fst (body (set_stack (f :: asyncFrameStack st) st)))
        (set_stack (asyncFrameStack st) (snd (body (set_stack (f :: asyncFrameStack st) st)))).
Proof.
  intros Hd Hb. unfold scopeB. apply scoped_push_pop; [exact Hb |].
  intros st' Hs. by apply (VB_pop_cons kj_debug st' f).
Qed.

Lemma scopeB_restores_stack_witness :
  (true = false \/ asyncFrameStack (sampleIsolate [0] ∅) <> []) /\
  Balanced idBody (1 :: asyncFrameStack (sampleIsolate [0] ∅)) /\
  scopeB true 1 idBody (sampleIsolate [0] ∅) = Ran (Ok 42) (sampleIsolate [0] ∅).
Proof.
  split; [right; discriminate |]. split; [intros st Hs; exact Hs |].
  rewrite (scopeB_restores_stack true 1 idBody (sampleIsolate [0] ∅)); [reflexivity | |].
  - right; discriminate.
  - intros st Hs; exact Hs.
Defined.

(** X4: in a [KJ_DEBUG] build, a version B [Scope] entered on an empty stack
    cannot be left cleanly: its destructor pops the frame and then trips the
    stack assertion. The block's result is replaced by that exception, and a
    block that itself threw ends the process ([std::terminate]). *)
Theorem scopeB_empty_stack_debug {A} (f : FrameId) (body : M A) (st : IsolateBase) :
  asyncFrameStack st = [] -> Balanced body [f] ->
  match fst (body (set_stack [f] st)) with
  | Ok _ =>
      scopeB true f body st
      = Ran (Throw (KjAssertion "the async context frame stack was corrupted"))
            (set_stack [] (snd (body (set_stack [f] st))))
  | Throw _ => scopeB true f body st = Terminated
  end.
Proof.
  intros Hs Hb. unfold scopeB, scoped, pushAsyncFrame, VB.popAsyncFrame. mstep. simpl.
  rewrite Hs. pose proof (Hb (set_stack [f] st) eq_refl) as Hb'.
  destruct (body (set_stack [f] st)) as [r st2] eqn:Hbody. simpl in Hb' |- *.
  rewrite Hb'. simpl. destruct r; reflexivity.
Qed.

Lemma scopeB_empty_stack_debug_witness :
  asyncFrameStack emptyIsolate = [] /\ Balanced idBody [3] /\
  scopeB true 3 idBody emptyIsolate
  = Ran (Throw (KjAssertion "the async context frame stack was corrupted")) emptyIsolate.
Proof.
  split; [reflexivity |]. split; [intros st Hs; exact Hs |].
  exact (scopeB_empty_stack_debug 3 idBody emptyIsolate eq_refl (fun st Hs => Hs)).
Defined.

(** The state after [wrap] associates the unwrapped function [fn] with the
    frame [f]: ASYNC_RESOURCE and (if given) THIS_ARG set on [fn], and a new
    wrapper function whose data is [fn]. *)
Definition wrappedState (fn : nat) (f : FrameId) (thisArg : option Value) (st : IsolateBase)
    : IsolateBase :=
  set_fns (<[fn := f]> (fnTags st))
    (match thisArg with Some a => <[fn := a]> (fnThisArg st) | None => fnThisArg st end)
    (<[nextFn st := fn]> (wrappers st)) (S (nextFn st)) st.

Lemma wrapFunction_fresh (current : M FrameId) (fn : nat) (thisArg : option Value)
    (st : IsolateBase) (f : FrameId) :
  fnTags st !! fn = None -> current st = (Ok f, st) ->
  wrapFunction current fn thisArg st = (Ok (nextFn st), wrappedState fn f thisArg st).
Proof.
  intros Hn Hc. unfold wrapFunction. mstep. rewrite Hn. simpl. rewrite Hc.
  destruct thisArg; reflexivity.
Qed.

Lemma wrapFunction_tagged (current : M FrameId) (fn : nat) (thisArg : option Value)
    (st : IsolateBase) (f : FrameId) :
  fnTags st !! fn = Some f ->
  wrapFunction current fn thisArg st
  = (Throw (JsgTypeError "This function has already been associated with an async context."), st).
Proof.
  intros Hf. unfold wrapFunction. mstep. rewrite Hf.
  rewrite bool_decide_true by (eexists; reflexivity). reflexivity.
Qed.

Lemma wrappedState_fnTags (fn : nat) (f : FrameId) (thisArg : option Value) (st : IsolateBase) :
  fnTags (wrappedState fn f thisArg st) !! fn = Some f.
Proof. apply lookup_insert_eq. Qed.

Lemma wrappedState_thisArg (fn : nat) (f : FrameId) (a : Value) (st : IsolateBase) :
  fnThisArg (wrappedState fn f (Some a) st) !! fn = Some a.
Proof. apply lookup_insert_eq. Qed.

Lemma VA_current_cons (st : IsolateBase) (f : FrameId) (s : list FrameId) :
  asyncFrameStack st = f :: s -> VA.current st = (Ok f, st).
Proof. intros Hs. unfold VA.current. mstep. by rewrite Hs. Qed.

Lemma VB_current_cons (st : IsolateBase) (f : FrameId) (s : list FrameId) :
  asyncFrameStack st = f :: s -> VB.current st = (Ok f, st).
Proof.
  intros Hs. unfold VB.current. mstep. rewrite Hs.
  rewrite (bool_decide_false (f :: s = [])) by discriminate. reflexivity.
Qed.

(** X5: wrapping a function that carries no frame yet succeeds in both
    versions: it stores the current frame (the stack top) and the optional
    [thisArg] on the function, and returns a new wrapper function whose data
    is the original; the frame stack is untouched. Wrapping the same function
    again afterwards throws the "already associated" TypeError. *)
Theorem wrap_registers (fn : nat) (thisArg thisArg' : option Value) (st : IsolateBase)
    (f : FrameId) (s : list FrameId) :
  fnTags st !! fn = None -> asyncFrameStack st = f :: s ->
  VA.wrap fn thisArg st = (Ok (nextFn st), wrappedState fn f thisArg st)
  /\ VB.wrap fn thisArg st = (Ok (nextFn st), wrappedState fn f thisArg st)
  /\ wrappers (wrappedState fn f thisArg st) !! nextFn st = Some fn
  /\ asyncFrameStack (wrappedState fn f thisArg st) = asyncFrameStack st
  /\ fst (VA.wrap fn thisArg' (wrappedState fn f thisArg st))
     = Throw (JsgTypeError "This function has already been associated with an async context.")
  /\ fst (VB.wrap fn thisArg' (wrappedState fn f thisArg st))
     = Throw (JsgTypeError "This function has already been associated with an async context.").
Proof.
  intros Hn Hs. unfold VA.wrap, VB.wrap.
  refine (conj _ (conj _ (conj _ (conj _ (conj _ _))))).
  - apply wrapFunction_fresh; [exact Hn | by apply (VA_current_cons st f s)].
  - apply wrapFunction_fresh; [exact Hn | by apply (VB_current_cons st f s)].
  - apply lookup_insert_eq.
  - reflexivity.
  - by rewrite (wrapFunction_tagged _ _ _ _ f) by apply wrappedState_fnTags.
  - by rewrite (wrapFunction_tagged _ _ _ _ f) by apply wrappedState_fnTags.
Qed.

Lemma wrap_registers_witness :
  fnTags (sampleIsolate [1; 0] ∅) !! 3 = None /\
  VB.wrap 3 (Some 9) (sampleIsolate [1; 0] ∅)
  = (Ok 0, wrappedState 3 1 (Some 9) (sampleIsolate [1; 0] ∅)).
Proof.
  split; [reflexivity |].
  exact (proj1 (proj2 (wrap_registers 3 (Some 9) None (sampleIsolate [1; 0] ∅) 1 [0]
                         eq_refl eq_refl))).
Defined.

Section WrapperCall.
(** The engine's [fn->Call(context, thisArg, argc, argv)]. *)
Variable call : nat -> Value -> list Value -> M (option Value).
(** [context->Global()] *)
Variable globalThis : Value.


(** X7: the same for version B, provided [KJ_DEBUG] is off or the caller's
    stack is not empty. *)
Theorem wrapper_call_B (kj_debug : bool) (fn : nat) (a : Value) (args : list Value)
    (st st2 : IsolateBase) (f : FrameId) (s : list FrameId) :
  fnTags st !! fn = None -> asyncFrameStack st = f :: s ->
  fnTags st2 !! fn = fnTags (snd (VB.wrap fn (Some a) st)) !! fn ->
  fnThisArg st2 !! fn = fnThisArg (snd (VB.wrap fn (Some a) st)) !! fn ->
  (kj_debug = false \/ asyncFrameStack st2 <> []) ->
  Balanced (call fn a args) (f :: asyncFrameStack st2) ->
  wrapperCallbackB kj_debug call globalThis fn args st2
  = Ran (fst (call fn a args (set_stack (f :: asyncFrameStack st2) st2)))
        (set_stack (asyncFrameStack st2) (snd (call fn a args (set_stack (f :: asyncFrameStack st2) st2)))).
Proof.
  intros Hn Hs Ht Ha Hd Hb. unfold VB.wrap in Ht, Ha.
  rewrite (wrapFunction_fresh _ _ _ _ f Hn (VB_current_cons st f s Hs)) in Ht, Ha.
  cbn [snd] in Ht, Ha. rewrite wrappedState_fnTags in Ht. rewrite wrappedState_thisArg in Ha.
  unfold wrapperCallbackA, wrapperCallbackB, wrapperCallback. rewrite Ht, Ha. simpl.
  apply scoped_push_pop; [exact Hb |].
  intros st' Hs'. by apply (VB_pop_cons kj_debug st' f).
Qed.

End WrapperCall.

Definition constCall (fn : nat) (this : Value) (args : list Value) : M (option Value) :=
  mret (Some this).


Lemma wrapper_call_B_witness :
  let st := sampleIsolate [1; 0] ∅ in
  let st2 := set_stack [0] (snd (VB.wrap 3 (Some 9) st)) in
  fnTags st !! 3 = None /\
  wrapperCallbackB true constCall 0 3 [] st2 = Ran (Ok (Some 9)) st2.
Proof.
  simpl. split; [reflexivity |].
  rewrite (wrapper_call_B constCall 0 true 3 9 [] (sampleIsolate [1; 0] ∅)
             (set_stack [0] (snd (VB.wrap 3 (Some 9) (sampleIsolate [1; 0] ∅)))) 1 [0]);
    [reflexivity | reflexivity | reflexivity | reflexivity | reflexivity | right; discriminate |].
  intros st0 Hs0; exact Hs0.
Defined.


Lemma VB_create_current (kj_debug : bool) (ov : option StorageEntry) (st : IsolateBase)
    (f : FrameId) (s : list FrameId) :
  asyncFrameStack st = f :: s -> VB.create kj_debug None ov st = VB.create kj_debug (Some f) ov st.
Proof.
  intros Hs. unfold VB.create, allocFrame, VB.current. mstep. simpl. rewrite Hs.
  rewrite (bool_decide_false (f :: s = [])) by discriminate. reflexivity.
Qed.

Lemma VA_create_current (ov : option StorageEntry) (st : IsolateBase) (f : FrameId) :
  (asyncFrameStack st = [] /\ rootAsyncFrame st = Some f)
  \/ (exists s, asyncFrameStack st = f :: s) ->
  VA.create None ov st = VA.create (Some f) ov st.
Proof.
  intros [[Hs Hr] | [s Hs]]; unfold VA.create, allocFrame, VA.current, VA.getRootAsyncContext;
    mstep; simpl; rewrite Hs; simpl; [rewrite Hr |]; reflexivity.
Qed.

(** In the child created with the entry [(k, v)], [get(k)] answers [v],
    whatever the stack. *)
Lemma created_get (P : FrameId) (k : StorageKey) (v : Value) (st : IsolateBase) (s : list FrameId) :
  isDead st k = false ->
  fst (get (nextFrame st) k (set_stack s (createdState P (Some (mkEntry k v)) st))) = Ok (Some v).
Proof.
  intros Hk. rewrite get_live by exact Hk. simpl. f_equal.
  unfold storageOf. simpl. rewrite lookup_insert_eq. simpl.
  rewrite (eraseDead_deadKeys _ st) by reflexivity.
  apply upsert_live_find; [apply eraseDead_live | exact Hk].
Qed.

(** The state after version A's [create(nullptr, entry)] on a fresh
    isolate: the new frame is allocated first, then the root (needed as the
    parent), and the new frame's table is the root's empty one with the
    entry upserted. *)
Definition rootThenChild (ov : option StorageEntry) (st : IsolateBase) : IsolateBase :=
  set_root (Some (S (nextFrame st)))
    (set_frames (<[nextFrame st := childStorage ∅ ov]>
                   (<[S (nextFrame st) := ∅]> (<[nextFrame st := ∅]> (frames st))))
       (S (S (nextFrame st))) st).

Lemma VA_create_fresh (ov : option StorageEntry) (st : IsolateBase) :
  rootAsyncFrame st = None -> asyncFrameStack st = [] ->
  VA.create None ov st = (Ok (nextFrame st), rootThenChild ov st).
Proof.
  intros Hr Hs. unfold VA.create, allocFrame, VA.current, VA.getRootAsyncContext. mstep. simpl.
  rewrite Hs. simpl. rewrite Hr. simpl. rewrite Hs.
  rewrite (bool_decide_true (([] : list FrameId) = [])) by reflexivity. simpl.
  assert (He : forall st0, storageOf st0 (S (nextFrame st)) = ∅ ->
                 eraseDead st0 (storageOf st0 (S (nextFrame st))) = ∅).
  { intros st0 H0. rewrite H0. apply map_filter_empty. }
  rewrite (propagate_spec (fun _ st0 => (Ok tt, st0))).
  - simpl. rewrite He by (unfold storageOf; simpl; by rewrite lookup_insert_eq).
    rewrite insert_insert_eq. reflexivity.
  - lia.
  - unfold storageOf. simpl. rewrite lookup_insert_ne by lia. by rewrite lookup_insert_eq.
  - unfold storageOf. simpl. rewrite lookup_insert_eq. simpl. intros h x Hx.
    by rewrite lookup_empty in Hx.
  - reflexivity.
Qed.

(** X9: version A's [StorageScope(key, store)] runs its block in a new child
    of the current frame (the stack top, or the root when the stack is
    empty), pushed on the stack, in which [get(key)] answers [store]; the
    block's result passes through and the stack is restored afterwards. On a
    fresh isolate (no root, empty stack) the root is created on the way, as
    the new frame's parent, and stays recorded. *)
Theorem storageScopeA_get {A} (kj_debug : bool) (k : StorageKey) (v : Value) (body : M A)
    (st : IsolateBase) :
  isDead st k = false ->
  (forall f,
     (asyncFrameStack st = [] /\ rootAsyncFrame st = Some f)
     \/ (exists s, asyncFrameStack st = f :: s) ->
     f < nextFrame st -> StorageWf (storageOf st f) ->
     Balanced body (nextFrame st :: asyncFrameStack st) ->
     storageScopeA kj_debug k v body st
     = Ran (fst (body (set_stack (nextFrame st :: asyncFrameStack st) (createdState f (Some (mkEntry k v)) st))))
           (set_stack (asyncFrameStack st)
              (snd (body (set_stack (nextFrame st :: asyncFrameStack st) (createdState f (Some (mkEntry k v)) st)))))
     /\ fst (get (nextFrame st) k
               (set_stack (nextFrame st :: asyncFrameStack st) (createdState f (Some (mkEntry k v)) st)))
        = Ok (Some v))
  /\ (rootAsyncFrame st = None -> asyncFrameStack st = [] -> Balanced body [nextFrame st] ->
       storageScopeA kj_debug k v body st
       = Ran (fst (body (set_stack [nextFrame st] (rootThenChild (Some (mkEntry k v)) st))))
             (set_stack [] (snd (body (set_stack [nextFrame st] (rootThenChild (Some (mkEntry k v)) st)))))
       /\ rootAsyncFrame (rootThenChild (Some (mkEntry k v)) st) = Some (S (nextFrame st))
       /\ fst (get (nextFrame st) k (set_stack [nextFrame st] (rootThenChild (Some (mkEntry k v)) st)))
          = Ok (Some v)).
Proof.
  intros Hk. split.
  - intros f Hcur Hf Hwf Hb. split; [| by apply created_get].
    unfold storageScopeA. rewrite (VA_create_current _ st f Hcur).
    rewrite VA_create_parent by assumption. unfold scopeA.
    apply (scoped_push_pop (VA.popAsyncFrame kj_debug) body (nextFrame st)
             (createdState f (Some (mkEntry k v)) st)); [exact Hb |].
    intros st' Hs'. by apply (VA_pop_cons kj_debug st' (nextFrame st)).
  - intros Hr Hs Hb. refine (conj _ (conj eq_refl _)).
    + unfold storageScopeA. rewrite VA_create_fresh by assumption. unfold scopeA.
      pose proof (scoped_push_pop (VA.popAsyncFrame kj_debug) body (nextFrame st)
                    (rootThenChild (Some (mkEntry k v)) st)) as Hsc.
      cbn [asyncFrameStack rootThenChild set_root set_frames] in Hsc. rewrite Hs in Hsc.
      apply Hsc; [exact Hb |].
      intros st' Hs'. by apply (VA_pop_cons kj_debug st' (nextFrame st)).
    + rewrite get_live by exact Hk. simpl. f_equal.
      unfold storageOf. simpl. rewrite lookup_insert_eq. simpl.
      rewrite (eraseDead_deadKeys _ st) by reflexivity.
      apply upsert_live_find; [| exact Hk].
      intros h x Hx. by rewrite lookup_empty in Hx.
Qed.

Lemma storageScopeA_get_witness :
  let st := sampleIsolate [] ∅ in
  fst (get 2 liveKey (set_stack [2] (createdState 0 (Some (mkEntry liveKey 7)) st))) = Ok (Some 7)
  /\ storageScopeA true liveKey 7 idBody st = Ran (Ok 42) (set_stack [] (createdState 0 (Some (mkEntry liveKey 7)) st))
  /\ storageScopeA true liveKey 7 idBody emptyIsolate
     = Ran (Ok 42) (set_stack [] (set_stack [0] (rootThenChild (Some (mkEntry liveKey 7)) emptyIsolate))).
Proof.
  simpl.
  destruct (storageScopeA_get true liveKey 7 idBody (sampleIsolate [] ∅) eq_refl) as [Hsome _].
  destruct (Hsome 0) as [H1 H2].
  - left; split; reflexivity.
  - simpl; lia.
  - apply (bool_decide_unpack _); vm_compute; exact I.
  - intros st0 Hs0; exact Hs0.
  - split; [exact H2 |]. split; [rewrite H1; reflexivity |].
    destruct (storageScopeA_get true liveKey 7 idBody emptyIsolate eq_refl) as [_ Hfresh].
    destruct (Hfresh eq_refl eq_refl) as [H3 _]; [intros st0 Hs0; exact Hs0 |].
    rewrite H3. reflexivity.
Defined.

(** X10: version B's [StorageScope(key, store)] on a non-empty stack runs
    its block in a new child of the stack top, pushed on the stack, in which
    [get(key)] answers [store]; the block's result passes through and the
    stack is restored afterwards. The child's construction passes version B's
    debug check, and leaving the scope never empties the stack. *)
Theorem storageScopeB_get {A} (kj_debug : bool) (k : StorageKey) (v : Value) (body : M A)
    (st : IsolateBase) (f : FrameId) (s : list FrameId) :
  asyncFrameStack st = f :: s ->
  f < nextFrame st -> StorageWf (storageOf st f) -> isDead st k = false ->
  Balanced body (nextFrame st :: f :: s) ->
  storageScopeB kj_debug k v body st
  = Ran (fst (body (set_stack (nextFrame st :: f :: s) (createdState f (Some (mkEntry k v)) st))))
        (set_stack (f :: s)
           (snd (body (set_stack (nextFrame st :: f :: s) (createdState f (Some (mkEntry k v)) st)))))
  /\ fst (get (nextFrame st) k
            (set_stack (nextFrame st :: f :: s) (createdState f (Some (mkEntry k v)) st)))
     = Ok (Some v).
Proof.
  intros Hs Hf Hwf Hk Hb. split; [| by apply created_get].
  unfold storageScopeB. rewrite (VB_create_current _ _ st f s Hs).
  rewrite VB_create_parent by assumption. unfold scopeB.
  pose proof (scoped_push_pop (VB.popAsyncFrame kj_debug) body (nextFrame st)
                (createdState f (Some (mkEntry k v)) st)) as Hsc.
  cbn [asyncFrameStack createdState set_frames] in Hsc. rewrite Hs in Hsc.
  apply Hsc; [exact Hb |].
  intros st' Hs'. apply (VB_pop_cons kj_debug st' (nextFrame st)); [exact Hs' | right; discriminate].
Qed.

Lemma storageScopeB_get_witness :
  let st := sampleIsolate [0] ∅ in
  fst (get 2 liveKey (set_stack [2; 0] (createdState 0 (Some (mkEntry liveKey 7)) st))) = Ok (Some 7)
  /\ storageScopeB true liveKey 7 idBody st
     = Ran (Ok 42) (set_stack [0] (createdState 0 (Some (mkEntry liveKey 7)) st)).
Proof.
  simpl.
  destruct (storageScopeB_get true liveKey 7 idBody (sampleIsolate [0] ∅) 0 []) as [H1 H2].
  - reflexivity.
  - simpl; lia.
  - apply (bool_decide_unpack _); vm_compute; exact I.
  - reflexivity.
  - intros st0 Hs0; exact Hs0.
  - split; [exact H2 | rewrite H1; reflexivity].
Defined.

(** X11: version A creates its root frame once, lazily: the first
    [getRootAsyncContext] on an empty stack allocates a fresh frame with an
    empty table and records it; later calls answer the same frame without
    changing anything, and [isRoot] holds of that frame and of no other. *)
Theorem getRoot_lazy_once (st : IsolateBase) :
  rootAsyncFrame st = None -> asyncFrameStack st = [] ->
  VA.getRootAsyncContext st = (Ok (nextFrame st), rootCreated st)
  /\ VA.getRootAsyncContext (rootCreated st) = (Ok (nextFrame st), rootCreated st)
  /\ storageOf (rootCreated st) (nextFrame st) = ∅
  /\ (forall g, VA.isRoot g (rootCreated st)
               = (Ok (bool_decide (nextFrame st = g)), rootCreated st)).
Proof.
  intros Hr Hs. refine (conj _ (conj _ (conj _ _))).
  - unfold VA.getRootAsyncContext, allocFrame. mstep. rewrite Hr. simpl. rewrite Hs. reflexivity.
  - reflexivity.
  - unfold storageOf. simpl. by rewrite lookup_insert_eq.
  - intros g. reflexivity.
Qed.

Lemma getRoot_lazy_once_witness :
  rootAsyncFrame emptyIsolate = None /\
  VA.getRootAsyncContext emptyIsolate = (Ok 0, rootCreated emptyIsolate).
Proof.
  split; [reflexivity |].
  exact (proj1 (getRoot_lazy_once emptyIsolate eq_refl eq_refl)).
Defined.

(** X13: enabling async context tracking installs the promise hook exactly
    once: from a disabled state, any number of calls (at least one) enables
    tracking with a single [SetPromiseHook]; an enabled state is left as it
    is. *)
Theorem tracking_one_shot (n : nat) (ts : TrackingState) :
  (asyncContextTrackingEnabled ts = true -> setAsyncContextTrackingEnabled ts = ts)
  /\ (asyncContextTrackingEnabled ts = false ->
        Nat.iter (S n) setAsyncContextTrackingEnabled ts
        = mkTracking true (S (promiseHookInstalls ts))).
Proof.
  split.
  - intros He. unfold setAsyncContextTrackingEnabled. by rewrite He.
  - intros He. induction n as [| n IH].
    + simpl. unfold setAsyncContextTrackingEnabled. by rewrite He.
    + change (Nat.iter (S (S n)) setAsyncContextTrackingEnabled ts)
        with (setAsyncContextTrackingEnabled (Nat.iter (S n) setAsyncContextTrackingEnabled ts)).
      rewrite IH. reflexivity.
Qed.

Lemma tracking_one_shot_witness :
  asyncContextTrackingEnabled (mkTracking false 0) = false /\
  Nat.iter 3 setAsyncContextTrackingEnabled (mkTracking false 0) = mkTracking true 1.
Proof.
  split; [reflexivity |].
  exact (proj2 (tracking_one_shot 2 (mkTracking false 0)) eq_refl).
Defined.

(** Every frame's table keeps its rows at their key's hash, and every frame
    address is below the next fresh one. *)
Definition FramesWf (st : IsolateBase) : Prop :=
  map_Forall (fun f s => f < nextFrame st /\ StorageWf s) (frames st).

Lemma FramesWf_storageOf (st : IsolateBase) (f : FrameId) :
  FramesWf st -> StorageWf (storageOf st f).
Proof.
  intros Hw. unfold storageOf. destruct (frames st !! f) as [s |] eqn:Hf; simpl.
  - exact (proj2 (Hw f s Hf)).
  - apply map_Forall_empty.
Qed.

Lemma upsert_wf (e : StorageEntry) (s : Storage) :
  StorageWf s -> StorageWf (tableUpsert e s).
Proof.
  intros Hw. unfold tableUpsert.
  destruct (s !! khash (key e)) as [ex |] eqn:Hex; intros h x Hx;
    apply lookup_insert_Some in Hx as [[<- <-] | [_ Hx]]; simpl.
  - exact (Hw _ ex Hex).
  - exact (Hw h x Hx).
  - reflexivity.
  - exact (Hw h x Hx).
Qed.

Lemma childStorage_wf (ps : Storage) (ov : option StorageEntry) :
  StorageWf ps -> StorageWf (childStorage ps ov).
Proof. intros Hw. destruct ov; simpl; [by apply upsert_wf | exact Hw]. Qed.

Lemma createdState_wf (P : FrameId) (ov : option StorageEntry) (st : IsolateBase) :
  FramesWf st -> P < nextFrame st -> FramesWf (createdState P ov st).
Proof.
  intros Hw HP. unfold FramesWf, createdState. simpl.
  apply map_Forall_insert_2.
  { split; [lia |]. apply childStorage_wf, eraseDead_wf, FramesWf_storageOf, Hw. }
  apply map_Forall_insert_2.
  { split; [lia |]. apply eraseDead_wf, FramesWf_storageOf, Hw. }
  intros g s Hg. destruct (Hw g s Hg) as [Hlt Hs]. split; [lia | exact Hs].
Qed.

(** X14: frame creation with an existing parent keeps every table indexed by
    its keys' hashes (the invariant of the [HashIndex]), in both versions;
    since the parent's rows have distinct hashes, copying them into the new
    table never hits "inserted row already exists", and [create] succeeds
    with a fresh frame. *)
Theorem create_keeps_FramesWf (kj_debug : bool) (P : FrameId) (ov : option StorageEntry)
    (st : IsolateBase) :
  FramesWf st -> P < nextFrame st ->
  fst (VA.create (Some P) ov st) = Ok (nextFrame st) /\ FramesWf (snd (VA.create (Some P) ov st))
  /\ fst (VB.create kj_debug (Some P) ov st) = Ok (nextFrame st)
  /\ FramesWf (snd (VB.create kj_debug (Some P) ov st)).
Proof.
  intros Hw HP.
  rewrite VA_create_parent, VB_create_parent by (exact HP || by apply FramesWf_storageOf). simpl.
  pose proof (createdState_wf P ov st Hw HP). tauto.
Qed.

Lemma create_keeps_FramesWf_witness :
  FramesWf inheritIsolate /\ 1 < nextFrame inheritIsolate /\
  fst (VB.create true (Some 1) (Some (mkEntry liveKey 2)) inheritIsolate) = Ok 2.
Proof.
  assert (Hw : FramesWf inheritIsolate).
  { intros f s Hf. unfold inheritIsolate in Hf. simpl in Hf.
    apply lookup_insert_Some in Hf as [[<- <-] | [_ Hf]].
    - split; [simpl; lia | apply map_Forall_empty].
    - apply lookup_singleton_Some in Hf as [<- <-].
      split; [simpl; lia |]. apply (bool_decide_unpack _); vm_compute; exact I. }
  split; [exact Hw |]. split; [simpl; lia |].
  exact (proj1 (proj2 (proj2 (create_keeps_FramesWf true 1 (Some (mkEntry liveKey 2))
                                inheritIsolate Hw ltac:(simpl; lia))))).
Defined.

(** X15: [get] keeps the table invariant: it only ever replaces a frame's
    table by its purged copy. *)
Theorem get_keeps_FramesWf (f : FrameId) (k : StorageKey) (st : IsolateBase) :
  FramesWf st -> f < nextFrame st -> FramesWf (snd (get f k st)).
Proof.
  intros Hw Hf. destruct (isDead st k) eqn:Hd.
  - unfold get. mstep. rewrite Hd. exact Hw.
  - rewrite get_live by exact Hd. unfold FramesWf. simpl.
    apply map_Forall_insert_2; [split; [exact Hf | apply eraseDead_wf, FramesWf_storageOf, Hw] |].
    exact Hw.
Qed.

Lemma get_keeps_FramesWf_witness :
  FramesWf deadKeyIsolate /\ 0 < nextFrame deadKeyIsolate /\
  FramesWf (snd (get 0 liveKey deadKeyIsolate)).
Proof.
  assert (Hw : FramesWf deadKeyIsolate).
  { intros f s Hf. unfold deadKeyIsolate in Hf. simpl in Hf.
    apply lookup_singleton_Some in Hf as [<- <-].
    split; [simpl; lia |]. apply (bool_decide_unpack _); vm_compute; exact I. }
  split; [exact Hw |]. split; [simpl; lia |].
  exact (get_keeps_FramesWf 0 liveKey deadKeyIsolate Hw ltac:(simpl; lia)).
Defined.

Lemma eraseDead_idem (st : IsolateBase) (s : Storage) :
  eraseDead st (eraseDead st s) = eraseDead st s.
Proof.
  apply map_eq. intros h. apply option_eq. intros e. rewrite !eraseDead_lookup. tauto.
Qed.

(** X16: the purge done by one [get] never changes what a later [get] on the
    same frame does: after [get(k1)], [get(k2)] answers and leaves the state
    exactly as [get(k2)] alone would (both keys live). *)
Theorem get_after_get (f : FrameId) (k1 k2 : StorageKey) (st : IsolateBase) :
  isDead st k1 = false -> isDead st k2 = false ->
  get f k2 (snd (get f k1 st)) = get f k2 st.
Proof.
  intros H1 H2. rewrite (get_live st f k1 H1). cbn [snd].
  rewrite get_live by exact H2. rewrite (get_live st f k2 H2).
  rewrite storageOf_set_frames, lookup_insert_eq. simpl.
  rewrite (eraseDead_deadKeys _ st) by reflexivity. rewrite eraseDead_idem.
  f_equal. unfold set_frames at 1. simpl. by rewrite insert_insert_eq.
Qed.

Lemma get_after_get_witness :
  isDead deadKeyIsolate liveKey = false /\
  get 0 liveKey (snd (get 0 liveKey deadKeyIsolate)) = get 0 liveKey deadKeyIsolate.
Proof.
  split; [reflexivity |].
  exact (get_after_get 0 liveKey liveKey deadKeyIsolate eq_refl eq_refl).
Defined.

(** X17: storage keys are told apart by [hashCode()] only ([operator==] and
    the table's callbacks compare hashes): a key [k2] whose hash equals that
    of [k1] reads the value a frame created with the entry [(k1, v)] holds,
    even when [k1] and [k2] are different keys; in both versions. *)
Theorem key_hash_collision (kj_debug : bool) (P : FrameId) (k1 k2 : StorageKey) (v : Value)
    (st : IsolateBase) :
  khash k1 = khash k2 -> P < nextFrame st -> StorageWf (storageOf st P) ->
  isDead st k1 = false -> isDead st k2 = false ->
  fst (get (nextFrame st) k2 (snd (VA.create (Some P) (Some (mkEntry k1 v)) st))) = Ok (Some v)
  /\ fst (get (nextFrame st) k2 (snd (VB.create kj_debug (Some P) (Some (mkEntry k1 v)) st)))
     = Ok (Some v).
Proof.
  intros Hh HP Hw H1 H2.
  rewrite VA_create_parent, VB_create_parent by assumption. cbn [snd].
  assert (Hg : fst (get (nextFrame st) k2 (createdState P (Some (mkEntry k1 v)) st)) = Ok (Some v)).
  { rewrite get_live by exact H2. simpl. f_equal.
    unfold storageOf. simpl. rewrite lookup_insert_eq. simpl.
    rewrite (eraseDead_deadKeys _ st) by reflexivity.
    unfold tableFind. rewrite <- Hh. fold (tableFind k1 (eraseDead st (tableUpsert (mkEntry k1 v)
      (eraseDead st (default ∅ (frames st !! P)))))).
    apply upsert_live_find; [apply eraseDead_live | exact H1]. }
  split; exact Hg.
Qed.

Definition collidingKey : StorageKey := mkKey 7 6.

Lemma key_hash_collision_witness :
  kaddr liveKey <> kaddr collidingKey /\
  fst (get 2 collidingKey (snd (VB.create true (Some 1) (Some (mkEntry liveKey 4)) inheritIsolate)))
  = Ok (Some 4).
Proof.
  split; [discriminate |].
  refine (proj2 (key_hash_collision true 1 liveKey collidingKey 4 inheritIsolate
                   eq_refl ltac:(simpl; lia) _ eq_refl eq_refl)).
  apply (bool_decide_unpack _); vm_compute; exact I.
Defined.

(** Version A's kBefore, once the root exists: push the promise's frame, or
    the root for an untagged promise. *)
Lemma VA_before_root (kj_debug : bool) (p : Promise) (st : IsolateBase) (r : FrameId) :
  terminating st = false -> rootAsyncFrame st = Some r ->
  VA.promiseHook kj_debug kBefore p st
  = (Ok tt, set_stack (default r (promiseTags st !! pid p) :: asyncFrameStack st) st).
Proof.
  intros Ht Hr. hook_unfold. rewrite Ht. simpl.
  destruct (asyncFrameStack st) as [| x t] eqn:Hs; simpl; [rewrite Hr; simpl |];
    destruct (promiseTags st !! pid p) as [f |] eqn:Hp; simpl; rewrite ?Hr, ?Hs; reflexivity.
Qed.

(** Version A's kInit on an untagged promise, once the root exists and the
    stack is not empty: tag it with the stack top unless that is the root. *)
Lemma VA_init_root (kj_debug : bool) (p : Promise) (st : IsolateBase) (r f : FrameId)
    (s : list FrameId) :
  terminating st = false -> rootAsyncFrame st = Some r -> asyncFrameStack st = f :: s ->
  promiseTags st !! pid p = None ->
  VA.promiseHook kj_debug kInit p st
  = (Ok tt, if bool_decide (r = f) then st
            else set_promiseTags (<[pid p := f]> (promiseTags st)) st).
Proof.
  intros Ht Hr Hs Hp. hook_unfold. rewrite Ht, Hs. simpl. rewrite Hr. simpl.
  destruct (bool_decide (r = f)) eqn:Hb; simpl; [reflexivity |].
  rewrite Hp. simpl.
  destruct kj_debug; simpl; rewrite ?Hp; simpl; rewrite Hs; reflexivity.
Qed.

Lemma VB_init_untagged (kj_debug : bool) (p : Promise) (st : IsolateBase) (f : FrameId)
    (s : list FrameId) :
  terminating st = false -> asyncFrameStack st = f :: s -> promiseTags st !! pid p = None ->
  VB.promiseHook kj_debug kInit p st
  = (Ok tt, set_promiseTags (<[pid p := f]> (promiseTags st)) st).
Proof.
  intros Ht Hs Hp. hook_unfold. rewrite Ht. simpl. rewrite Hp.
  destruct kj_debug; simpl; rewrite ?Hp; simpl; rewrite Hs; simpl; reflexivity.
Qed.

Lemma VB_before_tagged (kj_debug : bool) (p : Promise) (st : IsolateBase) (f : FrameId) :
  terminating st = false -> promiseTags st !! pid p = Some f ->
  VB.promiseHook kj_debug kBefore p st = (Ok tt, set_stack (f :: asyncFrameStack st) st).
Proof. intros Ht Hp. hook_unfold. rewrite Ht. simpl. by rewrite Hp. Qed.

(** X18: in version A a promise's continuation runs in the frame that was
    current when the promise was created: after kInit with [f] on top of the
    stack, a later kBefore for that promise (its tag as kInit left it) pushes
    exactly [f]. This holds also when [f] is the root, which kInit leaves
    untagged and kBefore maps back to the root. *)
Theorem VA_init_then_before (kj_debug : bool) (p : Promise) (st st2 : IsolateBase)
    (r f : FrameId) (s : list FrameId) :
  terminating st = false -> rootAsyncFrame st = Some r -> asyncFrameStack st = f :: s ->
  promiseTags st !! pid p = None ->
  terminating st2 = false -> rootAsyncFrame st2 = Some r ->
  promiseTags st2 !! pid p = promiseTags (snd (VA.promiseHook kj_debug kInit p st)) !! pid p ->
  VA.promiseHook kj_debug kBefore p st2 = (Ok tt, set_stack (f :: asyncFrameStack st2) st2).
Proof.
  intros Ht Hr Hs Hp Ht2 Hr2 Hp2.
  rewrite (VA_init_root kj_debug p st r f s Ht Hr Hs Hp) in Hp2. cbn [snd] in Hp2.
  rewrite (VA_before_root kj_debug p st2 r Ht2 Hr2), Hp2.
  destruct (bool_decide (r = f)) eqn:Hb.
  - apply bool_decide_eq_true in Hb. subst r. by rewrite Hp.
  - simpl. by rewrite lookup_insert_eq.
Qed.

Lemma VA_init_then_before_witness :
  let st := sampleIsolate [1; 0] ∅ in
  let st2 := set_stack [0] (snd (VA.promiseHook true kInit (mkPromise 7 kPending) st)) in
  promiseTags st !! 7 = None /\
  VA.promiseHook true kBefore (mkPromise 7 kPending) st2 = (Ok tt, set_stack [1; 0] st2).
Proof.
  simpl. split; [reflexivity |].
  exact (VA_init_then_before true (mkPromise 7 kPending) (sampleIsolate [1; 0] ∅)
           (set_stack [0] (snd (VA.promiseHook true kInit (mkPromise 7 kPending) (sampleIsolate [1; 0] ∅))))
           0 1 [0] eq_refl eq_refl eq_refl eq_refl eq_refl eq_refl eq_refl).
Defined.

(** X19: in version B a promise's continuation runs in the frame that was
    current when the promise was created: after kInit with [f] on top of the
    stack, a later kBefore for that promise (its tag as kInit left it) pushes
    exactly [f], the root included. *)
Theorem VB_init_then_before (kj_debug : bool) (p : Promise) (st st2 : IsolateBase)
    (f : FrameId) (s : list FrameId) :
  terminating st = false -> asyncFrameStack st = f :: s -> promiseTags st !! pid p = None ->
  terminating st2 = false ->
  promiseTags st2 !! pid p = promiseTags (snd (VB.promiseHook kj_debug kInit p st)) !! pid p ->
  VB.promiseHook kj_debug kBefore p st2 = (Ok tt, set_stack (f :: asyncFrameStack st2) st2).
Proof.
  intros Ht Hs Hp Ht2 Hp2.
  rewrite (VB_init_untagged kj_debug p st f s Ht Hs Hp) in Hp2. cbn [snd] in Hp2.
  simpl in Hp2. rewrite lookup_insert_eq in Hp2.
  by apply VB_before_tagged.
Qed.

Lemma VB_init_then_before_witness :
  let st := sampleIsolate [0] ∅ in
  let st2 := set_stack [1; 0] (snd (VB.promiseHook true kInit (mkPromise 7 kPending) st)) in
  promiseTags st !! 7 = None /\
  VB.promiseHook true kBefore (mkPromise 7 kPending) st2 = (Ok tt, set_stack [0; 1; 0] st2).
Proof.
  simpl. split; [reflexivity |].
  exact (VB_init_then_before true (mkPromise 7 kPending) (sampleIsolate [0] ∅)
           (set_stack [1; 0] (snd (VB.promiseHook true kInit (mkPromise 7 kPending) (sampleIsolate [0] ∅))))
           0 [] eq_refl eq_refl eq_refl eq_refl eq_refl).
Defined.

(** X20: in version A, once the root exists, a kBefore followed by the
    matching kAfter for the same promise leaves the stack as it was, keeps
    the tag of a rejected promise and erases the tag of any other; the debug
    checks of kAfter pass on the frame kBefore pushed. *)
Theorem VA_before_then_after (kj_debug : bool) (p : Promise) (st : IsolateBase) (r : FrameId) :
  terminating st = false -> rootAsyncFrame st = Some r ->
  VA.promiseHook kj_debug kAfter p (snd (VA.promiseHook kj_debug kBefore p st))
  = (Ok tt, if isRejected p then st else set_promiseTags (delete (pid p) (promiseTags st)) st).
Proof.
  intros Ht Hr. rewrite (VA_before_root kj_debug p st r Ht Hr). cbn [snd].
  destruct st as [stk root frs nf dk tags ft fta ws nfn term errs]; simpl in Ht, Hr |- *; subst.
  hook_unfold. simpl.
  destruct (tags !! pid p) as [f |] eqn:Hp; destruct kj_debug; simpl; rewrite ?Hp; simpl;
    repeat (rewrite bool_decide_true by reflexivity; simpl);
    try (rewrite (bool_decide_false (_ :: stk = [])) by discriminate; simpl);
    destruct (isRejected p); reflexivity.
Qed.

Lemma VA_before_then_after_witness :
  terminating (sampleIsolate [] {[7 := 1]}) = false /\
  VA.promiseHook true kAfter (mkPromise 7 kFulfilled)
    (snd (VA.promiseHook true kBefore (mkPromise 7 kFulfilled) (sampleIsolate [] {[7 := 1]})))
  = (Ok tt, sampleIsolate [] ∅).
Proof.
  split; [reflexivity |].
  rewrite (VA_before_then_after true (mkPromise 7 kFulfilled) (sampleIsolate [] {[7 := 1]}) 0
             eq_refl eq_refl).
  vm_compute. reflexivity.
Defined.

(** X21: in version B, a kBefore followed by the matching kAfter for a
    tagged promise leaves the whole state as it was (tags included), provided
    [KJ_DEBUG] is off or the stack was not empty before kBefore; in a
    [KJ_DEBUG] build on an empty stack, kAfter's pop trips the stack
    assertion after emptying the stack again. *)
Theorem VB_before_then_after (kj_debug : bool) (p : Promise) (st : IsolateBase) (f : FrameId) :
  terminating st = false -> promiseTags st !! pid p = Some f ->
  ((kj_debug = false \/ asyncFrameStack st <> []) ->
     VB.promiseHook kj_debug kAfter p (snd (VB.promiseHook kj_debug kBefore p st)) = (Ok tt, st))
  /\ (asyncFrameStack st = [] ->
        VB.promiseHook true kAfter p (snd (VB.promiseHook true kBefore p st))
        = (Throw (KjAssertion "the async context frame stack was corrupted"), st)).
Proof.
  intros Ht Hp. rewrite !(VB_before_tagged _ p st f Ht Hp). cbn [snd].
  destruct st as [stk root frs nf dk tags ft fta ws nfn term errs]; simpl in Ht, Hp |- *; subst.
  split.
  - intros Hd. hook_unfold. simpl.
    destruct kj_debug; simpl; rewrite ?Hp; simpl; [| reflexivity].
    rewrite (bool_decide_true (f = f)) by reflexivity. simpl.
    destruct Hd as [Hd | Hd]; [discriminate |].
    rewrite (bool_decide_false (stk = [])) by exact Hd. reflexivity.
  - intros Hs. subst stk. hook_unfold. simpl. rewrite Hp. simpl.
    rewrite (bool_decide_true (f = f)) by reflexivity. reflexivity.
Qed.

Lemma VB_before_then_after_witness :
  terminating (sampleIsolate [0] {[7 := 1]}) = false /\
  VB.promiseHook true kAfter (mkPromise 7 kFulfilled)
    (snd (VB.promiseHook true kBefore (mkPromise 7 kFulfilled) (sampleIsolate [0] {[7 := 1]})))
  = (Ok tt, sampleIsolate [0] {[7 := 1]}).
Proof.
  split; [reflexivity |].
  pose proof (VB_before_then_after true (mkPromise 7 kFulfilled) (sampleIsolate [0] {[7 := 1]}) 1
                eq_refl eq_refl) as H.
  destruct H as [H _].
  apply H. right. discriminate.
Defined.
